(** * Request pipeline of the test-automation harness

    A shallow embedding of [src/api/api-client.ts] (class [ApiClient]),
    together with the parts of [src/utils/logger.ts] and
    [src/config/test.config.ts] it relies on, and the statements made
    about it in the specification of the request pipeline.

    Conventions of the embedding:
    - JavaScript numbers that the client handles (status codes, attempt
      counters, delays) are integers and are modelled by [Z];
    - decoded payloads are JSON-like trees ([JsVal]); an [any]-typed
      value that may also be an object graph with a cycle, such as the
      request object a transport attaches to a failure, is a [JsAny];
    - what the transport rejects with is an object with the properties
      the client reads ([ErrObj]); what a retried operation rejects with
      is any value ([Thrown]), [undefined] and [null] included;
    - header collections match names regardless of letter case
      ([Headers]);
    - asynchronous code is sequential here: [await] is monadic bind in
      the monad [M] of state, trace and exceptions. *)

From Stdlib Require Import ZArith Lia Ascii String List.
From stdpp Require Import base option list strings pretty gmap.

Local Open Scope Z_scope.
Local Open Scope string_scope.

(** ** JavaScript values and strings *)

#[local] Unset Elimination Schemes.
Inductive JsVal : Type :=
  | JUndefined
  | JNull
  | JBool (b : bool)
  | JNum (z : Z)
  | JStr (s : string)
  | JArr (items : list JsVal)
  | JObj (props : list (string * JsVal)).
#[local] Set Elimination Schemes.

(** An [any]-typed value: a JSON-like tree, or an object whose graph
    has a cycle (such as the request object of the http adapter, which
    points to its socket and back). [JSON.stringify] throws on the latter;
    [description] is what the engine says about the cycle in the message
    of that error. *)
Inductive JsAny : Type :=
  | Plain (v : JsVal)
  | Cyclic (description : string).

Coercion Plain : JsVal >-> JsAny.

Definition truthy_value (v : JsVal) : bool :=
  match v with
  | JUndefined | JNull => false
  | JBool b => b
  | JNum z => negb (z =? 0)%Z
  | JStr s => negb (String.eqb s EmptyString)
  | JArr _ | JObj _ => true
  end.

(** Truthiness, as used by [if (config.data)], [if (error.request)] and
    [data ? ... : '']; objects and arrays are always truthy. *)
Definition truthy (a : JsAny) : bool :=
  match a with
  | Plain v => truthy_value v
  | Cyclic _ => true
  end.

Module Js.

Fixpoint join (sep : string) (parts : list string) : string :=
  match parts with
  | [] => ""
  | [p] => p
  | p :: rest => p +:+ sep +:+ join sep rest
  end.

Definition hex_digit (n : N) : ascii :=
  match n with
  | 0%N => "0" | 1%N => "1" | 2%N => "2" | 3%N => "3" | 4%N => "4"
  | 5%N => "5" | 6%N => "6" | 7%N => "7" | 8%N => "8" | 9%N => "9"
  | 10%N => "a" | 11%N => "b" | 12%N => "c" | 13%N => "d" | 14%N => "e"
  | _ => "f"
  end%char.

(** The double-quote character, code 34. *)
Definition dquote : ascii := ascii_of_N 34.

(** Escaping of one character inside a JSON string literal. *)
Definition escape_char (c : ascii) : string :=
  let n := N_of_ascii c in
  if (n =? 34)%N then String "\" (String dquote "")
  else if (n =? 92)%N then String "\" (String "\" "")
  else if (n =? 8)%N then String "\" "b"
  else if (n =? 12)%N then String "\" "f"
  else if (n =? 10)%N then String "\" "n"
  else if (n =? 13)%N then String "\" "r"
  else if (n =? 9)%N then String "\" "t"
  else if (n <? 32)%N then
    String "\" ("u00" +:+ String (hex_digit (n / 16)) (String (hex_digit (n mod 16)) ""))
  else String c "".

Fixpoint escape (s : string) : string :=
  match s with
  | EmptyString => ""
  | String c rest => escape_char c +:+ escape rest
  end.

Definition quote (s : string) : string :=
  String dquote (escape s +:+ String dquote "").

(** [JSON.stringify]: [None] is the result [undefined]. Inside an
    array [undefined] prints as [null]; inside an object the property
    is left out. *)
Fixpoint JSON_stringify (v : JsVal) : option string :=
  match v with
  | JUndefined => None
  | JNull => Some "null"
  | JBool b => Some (if b then "true" else "false")
  | JNum z => Some (pretty z)
  | JStr s => Some (quote s)
  | JArr items =>
      Some ("[" +:+ join "," (List.map (fun x => default "null" (JSON_stringify x)) items) +:+ "]")
  | JObj props =>
      Some ("{" +:+
            join "," (List.flat_map
                        (fun kv => match JSON_stringify (snd kv) with
                                   | Some s => [quote (fst kv) +:+ ":" +:+ s]
                                   | None => []
                                   end) props) +:+ "}")
  end.

(** A value interpolated in a template literal. *)
Definition template (o : option string) : string := default "undefined" o.

Definition upper_char (c : ascii) : ascii :=
  let n := N_of_ascii c in
  if ((97 <=? n) && (n <=? 122))%N then ascii_of_N (n - 32) else c.

Fixpoint toUpperCase (s : string) : string :=
  match s with
  | EmptyString => ""
  | String c rest => String (upper_char c) (toUpperCase rest)
  end.

Definition lower_char (c : ascii) : ascii :=
  let n := N_of_ascii c in
  if ((65 <=? n) && (n <=? 90))%N then ascii_of_N (n + 32) else c.

Fixpoint toLowerCase (s : string) : string :=
  match s with
  | EmptyString => ""
  | String c rest => String (lower_char c) (toLowerCase rest)
  end.

(** [String(v)], the text of a value interpolated in a template
    literal; in an array [undefined] and [null] give the empty text. *)
Fixpoint to_string (v : JsVal) : string :=
  match v with
  | JUndefined => "undefined"
  | JNull => "null"
  | JBool b => if b then "true" else "false"
  | JNum z => pretty z
  | JStr s => s
  | JArr items =>
      join "," (List.map (fun x => match x with
                                   | JUndefined | JNull => ""
                                   | _ => to_string x
                                   end) items)
  | JObj _ => "[object Object]"
  end.

(** [s.startsWith(p)] *)
Fixpoint startsWith (p s : string) : bool :=
  match p, s with
  | EmptyString, _ => true
  | String a p', String b s' => if Ascii.eqb a b then startsWith p' s' else false
  | String _ _, EmptyString => false
  end.

End Js.

(** ** Data model *)

(** HTTP verbs of the five entry points; axios keeps the method name in
    lower case in the request configuration. *)
Inductive Method : Set := GET | POST | PUT | PATCH | DELETE.

Definition method_name (m : Method) : string :=
  match m with
  | GET => "get" | POST => "post" | PUT => "put" | PATCH => "patch" | DELETE => "delete"
  end.

(** A collection of HTTP headers as axios keeps it: names are matched
    regardless of letter case, and a later entry for a name replaces an
    earlier one. The map is keyed by the lower-cased name; [h !! name],
    [<[name := value]> h] and [delete name h] lower-case [name] first. *)
Record Headers : Type := mkHeaders { header_map : gmap string string }.

#[global] Instance Headers_empty : Empty Headers := mkHeaders ∅.
#[global] Instance Headers_lookup : Lookup string string Headers :=
  fun name h => header_map h !! Js.toLowerCase name.
#[global] Instance Headers_insert : Insert string string Headers :=
  fun name value h => mkHeaders (<[Js.toLowerCase name := value]> (header_map h)).
#[global] Instance Headers_delete : Delete string Headers :=
  fun name h => mkHeaders (base.delete (Js.toLowerCase name) (header_map h)).
#[global] Instance Headers_singleton : SingletonM string string Headers :=
  fun name value => mkHeaders {[ Js.toLowerCase name := value ]}.
(** [h1 ∪ h2]: the entries of [h1] win. *)
#[global] Instance Headers_union : Union Headers :=
  fun h1 h2 => mkHeaders (header_map h1 ∪ header_map h2).

(** [AxiosRequestConfig]: the optional per-call options of a verb method
    (the fields that reach the merged request). *)
Record AxiosRequestConfig : Type := mkCallConfig {
  cfg_baseURL : option string;
  cfg_timeout : option Z;
  cfg_headers : Headers;
  cfg_data : JsVal
}.

(** The request configuration after merging with the instance defaults:
    what interceptors see and what the transport is given. *)
Record InternalRequestConfig : Type := mkRequest {
  req_url : string;
  req_method : Method;
  req_baseURL : string;
  req_timeout : Z;
  req_headers : Headers;
  req_data : JsVal
}.

(** [AxiosResponse<T>], the raw transport response. *)
Record AxiosResponse : Type := mkAxiosResponse {
  resp_data : JsVal;
  resp_status : Z;
  resp_statusText : string;
  resp_headers : JsVal;
  resp_config : InternalRequestConfig;
  resp_request : JsVal
}.

(** [ApiResponse<T>], the envelope returned by the verb methods. *)
Record ApiResponse : Type := mkApiResponse {
  data : JsVal;
  status : Z;
  statusText : string;
  headers : JsVal
}.

(** A thrown object, with the properties the client reads from it:
    [message], [response], [request], [config], and the value
    [JSON.stringify] serialises for it. [response] is an object or
    absent; [request] is tested for truthiness and may be an object with
    a cycle. *)
Record ErrObj : Type := mkErrObj {
  err_message : string;
  err_response : option AxiosResponse;
  err_request : JsAny;
  err_config : option InternalRequestConfig;
  err_json : JsVal
}.

(** [new Error(message)]: no own enumerable property, so it serialises
    as an empty object. *)
Definition new_Error (message : string) : ErrObj :=
  {| err_message := message; err_response := None; err_request := JUndefined;
     err_config := None; err_json := JObj [] |}.

(** The [TypeError] of [JSON.stringify] on an object with a cycle. *)
Definition TypeError_circular (description : string) : ErrObj :=
  new_Error ("Converting circular structure to JSON" +:+ description).

(** The same thrown object with another message text. *)
Definition with_message (text : string) (e : ErrObj) : ErrObj :=
  {| err_message := text; err_response := err_response e; err_request := err_request e;
     err_config := err_config e; err_json := err_json e |}.

(** The fields of [testConfig] that the client and the logger read. *)
Record TestConfig : Type := mkTestConfig {
  apiBaseUrl : string;
  testEnv : string;
  apiTimeout : Z;
  apiRetryAttempts : Z
}.

(** [defaults.headers] of the axios instance: the [common] group, which
    [setAuthToken] writes, and the headers given to [axios.create]. *)
Record DefaultHeaders : Type := mkDefaultHeaders {
  common : Headers;
  own : Headers
}.

Record AxiosDefaults : Type := mkDefaults {
  def_baseURL : string;
  def_timeout : Z;
  def_headers : DefaultHeaders
}.

Record AxiosInstance : Type := mkInstance { defaults : AxiosDefaults }.

Record ApiClient : Type := mkApiClient {
  client : AxiosInstance;
  baseURL : string
}.

(** ** Effects: state, trace and exceptions *)

(** What a run leaves behind: console lines, the requests handed to the
    transport, the timer waits, and the calls of a retried operation. *)
Inductive Event : Type :=
  | EvConsole (line : string)
  | EvDispatch (request : InternalRequestConfig)
  | EvDelay (ms : Z)
  | EvInvoke.

Record St (W : Type) : Type := mkSt { world : W; trace : list Event }.
Arguments mkSt {W} _ _.
Arguments world {W} _.
Arguments trace {W} _.

Inductive Completion (X A : Type) : Type :=
  | Normal (a : A)
  | Throw (x : X).
Arguments Normal {X A} _.
Arguments Throw {X A} _.

Definition M (W X A : Type) : Type := St W -> Completion X A * St W.

Definition ret {W X A} (a : A) : M W X A := fun s => (Normal a, s).

Definition throw {W X A} (x : X) : M W X A := fun s => (Throw x, s).

Definition bind {W X A B} (m : M W X A) (k : A -> M W X B) : M W X B :=
  fun s => match m s with
           | (Normal a, s') => k a s'
           | (Throw x, s') => (Throw x, s')
           end.

(** [try { m } catch (error) { h error }] *)
Definition try_catch {W X Y A} (m : M W X A) (h : X -> M W Y A) : M W Y A :=
  fun s => match m s with
           | (Normal a, s') => (Normal a, s')
           | (Throw x, s') => h x s'
           end.

Definition emit {W X} (evs : list Event) : M W X unit :=
  fun s => (Normal tt, mkSt (world s) (trace s ++ evs)).

#[global] Instance M_ret {W X} : MRet (M W X) := fun A => @ret W X A.
#[global] Instance M_bind {W X} : MBind (M W X) := fun A B k m => @bind W X A B m k.

(** ** The logger ([src/utils/logger.ts]) *)

Inductive LogLevel : Set := DEBUG | INFO | WARN | ERROR.

(** The numeric value of the enum member. *)
Definition LogLevel_value (l : LogLevel) : Z :=
  match l with DEBUG => 0 | INFO => 1 | WARN => 2 | ERROR => 3 end.

(** [JSON.stringify] on an [any]-typed value: it throws a [TypeError] on
    an object with a cycle. *)
Definition JSON_stringify_any (a : JsAny) : Completion ErrObj (option string) :=
  match a with
  | Plain v => Normal (Js.JSON_stringify v)
  | Cyclic description => Throw (TypeError_circular description)
  end.

(** What one logging call does: it prints lines, or it throws. *)
Inductive LogResult : Type :=
  | Logged (lines : list string)
  | LogThrew (x : ErrObj).

(** The logging capability the client uses: the four methods, each given
    the message, the optional [data] ([JUndefined] when left out) and
    read access to the world (the clock). *)
Record LoggerCap (W : Type) : Type := mkLoggerCap {
  cap_debug : string -> JsAny -> W -> LogResult;
  cap_info : string -> JsAny -> W -> LogResult;
  cap_warn : string -> JsAny -> W -> LogResult;
  cap_error : string -> JsAny -> W -> LogResult
}.
Arguments cap_debug {W} _ _ _ _.
Arguments cap_info {W} _ _ _ _.
Arguments cap_warn {W} _ _ _ _.
Arguments cap_error {W} _ _ _ _.

Module Logger.

(** The state of a [Logger] object. *)
Record t : Type := mk { level : LogLevel }.

Section WithClock.
Context {W : Type}.
(** [new Date().toISOString()] *)
Variable now : W -> string.

(** [formatMessage(level, message, data)]; it throws when [data] is
    truthy and [JSON.stringify(data)] throws. *)
Definition formatMessage (level : string) (message : string) (data : JsAny) (w : W)
    : Completion ErrObj string :=
  let timestamp := now w in
  match (if truthy data
         then match JSON_stringify_any data with
              | Normal json => Normal (" | Data: " +:+ Js.template json)
              | Throw x => Throw x
              end
         else Normal "") with
  | Normal formattedData =>
      Normal ("[" +:+ timestamp +:+ "] [" +:+ level +:+ "] " +:+ message +:+ formattedData)
  | Throw x => Throw x
  end.

Definition log (self : t) (level : LogLevel) (levelName : string)
    (message : string) (data : JsAny) (w : W) : LogResult :=
  if (LogLevel_value (Logger.level self) <=? LogLevel_value level)%Z then
    match formatMessage levelName message data w with
    | Normal formattedMessage => Logged [formattedMessage]
    | Throw x => LogThrew x
    end
  else Logged [].

Definition debug (self : t) message data := log self DEBUG "DEBUG" message data.
Definition info (self : t) message data := log self INFO "INFO" message data.
Definition warn (self : t) message data := log self WARN "WARN" message data.
Definition error (self : t) message data := log self ERROR "ERROR" message data.

Definition cap (self : t) : LoggerCap W :=
  {| cap_debug := debug self; cap_info := info self;
     cap_warn := warn self; cap_error := error self |}.

End WithClock.

Definition setLevel (self : t) (level : LogLevel) : t := mk level.

End Logger.

(** [export const logger = new Logger(testEnv === 'development' ? DEBUG : INFO)] *)
Definition logger (testConfig : TestConfig) : Logger.t :=
  Logger.mk (if String.eqb (testEnv testConfig) "development" then DEBUG else INFO).

(** ** The environment of a client *)

(** The HTTP transport below the axios interceptors and the logging
    capability. The transport resolves with a response or rejects with a
    failure object, and may change the world. *)
Record Runtime (W : Type) : Type := mkRuntime {
  rt_transport : InternalRequestConfig -> W -> Completion ErrObj AxiosResponse * W;
  rt_logger : LoggerCap W
}.
Arguments rt_transport {W} _ _ _.
Arguments rt_logger {W} _.

(** The client as the repository wires it: with its own [logger],
    which reads the clock [now]. *)
Definition runtime {W} (testConfig : TestConfig) (now : W -> string)
    (transport : InternalRequestConfig -> W -> Completion ErrObj AxiosResponse * W) : Runtime W :=
  {| rt_transport := transport;
     rt_logger := Logger.cap now (logger testConfig) |}.

(** A logging call inside the client. *)
Definition do_log {W} (f : string -> JsAny -> W -> LogResult)
    (message : string) (data : JsAny) : M W ErrObj unit :=
  fun s => match f message data (world s) with
           | Logged lines => (Normal tt, mkSt (world s) (trace s ++ List.map EvConsole lines))
           | LogThrew x => (Throw x, s)
           end.

(** ** The axios instance, as far as the client depends on it *)

Definition empty_call_config : AxiosRequestConfig :=
  {| cfg_baseURL := None; cfg_timeout := None; cfg_headers := ∅; cfg_data := JUndefined |}.

(** [axios.create({ baseURL, timeout, headers })]: the library's own
    [common] default and the headers given at creation. *)
Definition axios_create (baseURL : string) (timeout : Z) (headers : Headers)
    : AxiosInstance :=
  {| defaults :=
       {| def_baseURL := baseURL; def_timeout := timeout;
          def_headers :=
            {| common := {[ "Accept" := "application/json, text/plain, */*" ]};
               own := headers |} |} |}.

(** Merging of the instance defaults with one call. Per-call options
    win over the defaults; for headers the order is [common], then the
    instance's own headers, then the per-call headers. *)
Definition mergeConfig (d : AxiosDefaults) (method : Method) (url : string)
    (data : JsVal) (config : option AxiosRequestConfig) : InternalRequestConfig :=
  let c := default empty_call_config config in
  {| req_url := url;
     req_method := method;
     req_baseURL := default (def_baseURL d) (cfg_baseURL c);
     req_timeout := default (def_timeout d) (cfg_timeout c);
     req_headers := cfg_headers c ∪ own (def_headers d) ∪ common (def_headers d);
     req_data := data |}.

(** The handlers registered on [interceptors.request] and
    [interceptors.response]. *)
Record Interceptors (W : Type) : Type := mkInterceptors {
  request_fulfilled : InternalRequestConfig -> M W ErrObj InternalRequestConfig;
  request_rejected : ErrObj -> M W ErrObj InternalRequestConfig;
  response_fulfilled : AxiosResponse -> M W ErrObj AxiosResponse;
  response_rejected : ErrObj -> M W ErrObj AxiosResponse
}.
Arguments request_fulfilled {W} _ _.
Arguments request_rejected {W} _ _.
Arguments response_fulfilled {W} _ _.
Arguments response_rejected {W} _ _.

(** [promise.then(onFulfilled, onRejected)]: a throw inside
    [onFulfilled] is not seen by [onRejected] of the same [then]. *)
Definition then_ {W X A B} (promise : M W X A)
    (onFulfilled : A -> M W X B) (onRejected : X -> M W X B) : M W X B :=
  fun s => match promise s with
           | (Normal a, s') => onFulfilled a s'
           | (Throw x, s') => onRejected x s'
           end.

Section Client.
Context {W : Type}.
Variable rt : Runtime W.

Let log_debug := do_log (cap_debug (rt_logger rt)).
Let log_warn := do_log (cap_warn (rt_logger rt)).
Let log_error := do_log (cap_error (rt_logger rt)).

(** Handing the request to the transport. *)
Definition dispatchRequest (config : InternalRequestConfig) : M W ErrObj AxiosResponse :=
  fun s => let (r, w') := rt_transport rt config (world s) in
           (r, mkSt w' (trace s ++ [EvDispatch config])).

(** [ApiClient.setupInterceptors] *)
Definition setupInterceptors : Interceptors W :=
  {| request_fulfilled := fun config =>
       log_debug ("API Request: " +:+ Js.toUpperCase (method_name (req_method config))
                  +:+ " " +:+ req_url config) JUndefined ;;
       (if truthy (req_data config)
        then log_debug ("Request Data: " +:+ Js.template (Js.JSON_stringify (req_data config)))
                       JUndefined
        else mret tt) ;;
       mret config;
     request_rejected := fun error =>
       log_error "Request Error:" (err_json error) ;;
       throw error;
     response_fulfilled := fun response =>
       log_debug ("API Response: " +:+ pretty (resp_status response) +:+ " "
                  +:+ req_url (resp_config response)) JUndefined ;;
       log_debug ("Response Data: " +:+ Js.template (Js.JSON_stringify (resp_data response)))
                 JUndefined ;;
       mret response;
     response_rejected := fun error =>
       log_error "Response Error:"
         (JObj [("status", from_option (fun r => JNum (resp_status r)) JUndefined (err_response error));
                ("statusText", from_option (fun r => JStr (resp_statusText r)) JUndefined (err_response error));
                ("data", from_option resp_data JUndefined (err_response error));
                ("url", from_option (fun c => JStr (req_url c)) JUndefined (err_config error))]) ;;
       throw error |}.

(** [Axios.prototype.request]: the promise chain
    [Promise.resolve(config).then(requestFulfilled, requestRejected)
       .then(dispatchRequest, undefined)
       .then(responseFulfilled, responseRejected)]. *)
Definition Axios_request (self : AxiosInstance) (method : Method) (url : string)
    (data : JsVal) (config : option AxiosRequestConfig) : M W ErrObj AxiosResponse :=
  let merged := mergeConfig (defaults self) method url data config in
  let i := setupInterceptors in
  then_ (then_ (then_ (mret merged) (request_fulfilled i) (request_rejected i))
               dispatchRequest throw)
        (response_fulfilled i) (response_rejected i).

(** [client.get(url, config)] and [client.delete(url, config)] take the
    body from [config.data]; [post], [put] and [patch] take it as an
    argument. *)
Definition Axios_get self url config :=
  Axios_request self GET url (cfg_data (default empty_call_config config)) config.
Definition Axios_delete self url config :=
  Axios_request self DELETE url (cfg_data (default empty_call_config config)) config.
Definition Axios_post self url data config := Axios_request self POST url data config.
Definition Axios_put self url data config := Axios_request self PUT url data config.
Definition Axios_patch self url data config := Axios_request self PATCH url data config.

(** ** [ApiClient] *)

(** [private formatResponse<T>(response)] *)
Definition formatResponse (response : AxiosResponse) : ApiResponse :=
  {| data := resp_data response;
     status := resp_status response;
     statusText := resp_statusText response;
     headers := resp_headers response |}.

(** [private handleError(error: any): Error] *)
Definition handleError (error : ErrObj) : M W ErrObj ErrObj :=
  match err_response error with
  | Some response =>
      let status := resp_status response in
      let statusText := resp_statusText response in
      let data := resp_data response in
      let message := "API Error: " +:+ pretty status +:+ " " +:+ statusText in
      log_error message
        (JObj [("status", JNum status); ("statusText", JStr statusText); ("data", data)]) ;;
      mret (new_Error (message +:+ " - " +:+ Js.template (Js.JSON_stringify data)))
  | None =>
      if truthy (err_request error) then
        let message := "Network Error: No response received" in
        log_error message (err_request error) ;;
        mret (new_Error message)
      else
        let message := "Request Error: " +:+ err_message error in
        log_error message (err_json error) ;;
        mret (new_Error message)
  end.

(** The body shared by the five verb methods:
    [try { return formatResponse(await call) } catch (error) { throw handleError(error) }]. *)
Definition verb (call : M W ErrObj AxiosResponse) : M W ErrObj ApiResponse :=
  try_catch (response ← call; mret (formatResponse response))
            (fun error => e ← handleError error; throw e).

Definition get (self : ApiClient) (url : string) (config : option AxiosRequestConfig) :=
  verb (Axios_get (client self) url config).

Definition post (self : ApiClient) (url : string) (data : JsVal)
    (config : option AxiosRequestConfig) :=
  verb (Axios_post (client self) url data config).

Definition put (self : ApiClient) (url : string) (data : JsVal)
    (config : option AxiosRequestConfig) :=
  verb (Axios_put (client self) url data config).

Definition patch (self : ApiClient) (url : string) (data : JsVal)
    (config : option AxiosRequestConfig) :=
  verb (Axios_patch (client self) url data config).

Definition delete (self : ApiClient) (url : string) (config : option AxiosRequestConfig) :=
  verb (Axios_delete (client self) url config).

End Client.

(** [constructor(baseURL: string = testConfig.apiBaseUrl)]; the default
    applies when the argument is left out. *)
Definition constructor (testConfig : TestConfig) (baseURL : option string) : ApiClient :=
  let baseURL := default (apiBaseUrl testConfig) baseURL in
  {| baseURL := baseURL;
     client := axios_create baseURL (apiTimeout testConfig)
                 {[ "Content-Type" := "application/json"; "Accept" := "application/json" ]} |}.

Definition with_common (f : Headers -> Headers) (self : ApiClient)
    : ApiClient :=
  let d := defaults (client self) in
  {| baseURL := baseURL self;
     client := {| defaults :=
       {| def_baseURL := def_baseURL d; def_timeout := def_timeout d;
          def_headers := {| common := f (common (def_headers d));
                            own := own (def_headers d) |} |} |} |}.

(** [this.client.defaults.headers.common['Authorization'] = `Bearer ${token}`] *)
Definition setAuthToken (token : string) (self : ApiClient) : ApiClient :=
  with_common (fun h => <["Authorization" := "Bearer " +:+ token]> h) self.

(** [delete this.client.defaults.headers.common['Authorization']] *)
Definition removeAuthToken (self : ApiClient) : ApiClient :=
  with_common (fun h => base.delete "Authorization" h) self.

Definition setBaseURL (baseURL : string) (self : ApiClient) : ApiClient :=
  let d := defaults (client self) in
  {| baseURL := baseURL;
     client := {| defaults :=
       {| def_baseURL := baseURL; def_timeout := def_timeout d;
          def_headers := def_headers d |} |} |}.

Definition getBaseURL (self : ApiClient) : string := baseURL self.

(** The last binding of a key in an object. *)
Fixpoint lookup_last (k : string) (props : list (string * JsVal)) : option JsVal :=
  match props with
  | [] => None
  | (k', v) :: rest =>
      match lookup_last k rest with
      | Some v' => Some v'
      | None => if String.eqb k' k then Some v else None
      end
  end.

(** A property read [v.k], for a key [k] that no primitive or array has
    of its own (such as [data], [id], [email]): [None] is the
    [TypeError] of reading a property of [undefined] or [null]. *)
Definition prop (v : JsVal) (k : string) : option JsVal :=
  match v with
  | JUndefined | JNull => None
  | JObj props => Some (default JUndefined (lookup_last k props))
  | _ => Some JUndefined
  end.

(** [typeof v === 'number'] and [typeof v === 'string'] *)
Definition is_number (v : JsVal) : bool := match v with JNum _ => true | _ => false end.
Definition is_string (v : JsVal) : bool := match v with JStr _ => true | _ => false end.

(** The [TypeError] of a property read on [undefined] or [null] (the
    message is the engine's). *)
Definition TypeError_read (v : JsVal) (k : string) : ErrObj :=
  new_Error ("Cannot read properties of "
             +:+ (match v with JNull => "null" | _ => "undefined" end)
             +:+ " (reading '" +:+ k +:+ "')").

(** What an operation rejects with: an error object, or any other
    value, [undefined] and [null] included. *)
Inductive Thrown : Type :=
  | ThrownValue (v : JsVal)
  | ThrownObject (e : ErrObj).

Coercion ThrownObject : ErrObj >-> Thrown.

(** The text of [`${lastError.message}`] for a caught value: reading
    [message] of [undefined] or [null] throws a [TypeError]; a value
    without that property gives [undefined]. *)
Definition thrown_message (x : Thrown) : Completion ErrObj string :=
  match x with
  | ThrownObject e => Normal (err_message e)
  | ThrownValue v =>
      match prop v "message" with
      | Some m => Normal (Js.to_string m)
      | None => Throw (TypeError_read v "message")
      end
  end.

(** ** The retry wrapper *)

Section Retry.
Context {W T : Type}.
Variable rt : Runtime W.
(** [operation: () => Promise<T>]: it acts on the world and either
    resolves with a value or rejects with whatever it throws. *)
Variable operation : W -> Completion Thrown T * W.

Definition call_operation : M W Thrown T :=
  fun s => let (r, w') := operation (world s) in
           (r, mkSt w' (trace s ++ [EvInvoke])).

(** [private delay(ms)]: a timer of [ms] milliseconds. *)
Definition delay (ms : Z) : M W ErrObj unit := emit [EvDelay ms].

(** The [for] loop of [withRetry] and the [throw lastError!] after it.
    [attempt] is the loop counter, [lastError] the variable of that name
    ([None] while unassigned). The result is [None] only if [fuel] runs
    out before the loop ends; the thrown value [None] is the unassigned
    [lastError], that is [undefined]. A throw inside the [catch] block
    (reading [lastError.message], or the logger) leaves the loop. *)
Fixpoint retry_loop (maxAttempts delayMs : Z) (fuel : nat) (attempt : Z)
    (lastError : option Thrown) (s : St W)
    : option (Completion (option Thrown) T * St W) :=
  if (attempt <=? maxAttempts)%Z then
    match fuel with
    | O => None
    | S fuel' =>
        match call_operation s with
        | (Normal v, s1) => Some (Normal v, s1)
        | (Throw error, s1) =>
            let lastError := Some error in
            match thrown_message error with
            | Throw typeError => Some (Throw (Some (ThrownObject typeError)), s1)
            | Normal message =>
                match do_log (cap_warn (rt_logger rt))
                        ("Attempt " +:+ pretty attempt +:+ " failed: " +:+ message)
                        JUndefined s1 with
                | (Throw x, s2) => Some (Throw (Some (ThrownObject x)), s2)
                | (Normal _, s2) =>
                    if (attempt =? maxAttempts)%Z then Some (Throw lastError, s2)
                    else
                      match delay (delayMs * attempt) s2 with
                      | (_, s3) =>
                          retry_loop maxAttempts delayMs fuel' (attempt + 1) lastError s3
                      end
                end
            end
        end
    end
  else Some (Throw lastError, s).

(** [withRetry(operation, maxAttempts = testConfig.apiRetryAttempts, delay = 1000)] *)
Definition withRetry (testConfig : TestConfig) (maxAttempts delayMs : option Z) (s : St W)
    : option (Completion (option Thrown) T * St W) :=
  let maxAttempts := default (apiRetryAttempts testConfig) maxAttempts in
  let delayMs := default 1000%Z delayMs in
  retry_loop maxAttempts delayMs (Z.to_nat maxAttempts) 1 None s.

End Retry.

(** ** Reading a trace *)

Definition delays (tr : list Event) : list Z :=
  flat_map (fun ev => match ev with EvDelay ms => [ms] | _ => [] end) tr.

Definition invocations (tr : list Event) : nat :=
  length (List.filter (fun ev => match ev with EvInvoke => true | _ => false end) tr).

Definition dispatched (tr : list Event) : list InternalRequestConfig :=
  flat_map (fun ev => match ev with EvDispatch c => [c] | _ => [] end) tr.

(** The trace without its console lines: calls, dispatches and waits in
    the order they happened. *)
Definition timeline (tr : list Event) : list Event :=
  List.filter (fun ev => match ev with EvConsole _ => false | _ => true end) tr.

(** The requests handed to the transport while [m] runs from [s]. *)
Definition issued {W X A} (m : M W X A) (s : St W) : list InternalRequestConfig :=
  dispatched (drop (length (trace s)) (trace (snd (m s)))).

(** The world after [k] successive calls of [operation]. *)
Fixpoint world_after {W T} (operation : W -> Completion Thrown T * W) (k : nat) (w : W) : W :=
  match k with
  | O => w
  | S k' => world_after operation k' (snd (operation w))
  end.

(** The five verb methods by name, and the request each one builds. *)
Definition call_verb {W} (rt : Runtime W) (m : Method) (self : ApiClient) (url : string)
    (body : JsVal) (config : option AxiosRequestConfig) : M W ErrObj ApiResponse :=
  match m with
  | GET => get rt self url config
  | POST => post rt self url body config
  | PUT => put rt self url body config
  | PATCH => patch rt self url body config
  | DELETE => delete rt self url config
  end.

Definition verb_request (m : Method) (self : ApiClient) (url : string)
    (body : JsVal) (config : option AxiosRequestConfig) : InternalRequestConfig :=
  let body :=
    match m with
    | GET | DELETE => cfg_data (default empty_call_config config)
    | POST | PUT | PATCH => body
    end in
  mergeConfig (defaults (client self)) m url body config.

(** Calls of the configuration setters, and a client after a history of
    such calls on a newly constructed client. *)
Inductive SetterCall : Type :=
  | SetAuthToken (token : string)
  | RemoveAuthToken
  | SetBaseURL (baseURL : string).

Definition apply_setter (self : ApiClient) (c : SetterCall) : ApiClient :=
  match c with
  | SetAuthToken token => setAuthToken token self
  | RemoveAuthToken => removeAuthToken self
  | SetBaseURL u => setBaseURL u self
  end.

Definition client_after (testConfig : TestConfig) (baseURL : option string)
    (calls : list SetterCall) : ApiClient :=
  foldl apply_setter (constructor testConfig baseURL) calls.

(** The base address last written by a history of setter calls. *)
Definition last_base_url (b : string) (calls : list SetterCall) : string :=
  foldl (fun acc c => match c with SetBaseURL u => u | _ => acc end) b calls.

(** A logging capability none of whose calls throws. *)
Definition never_throws {W} (l : LoggerCap W) : Prop :=
  forall message data w,
    (exists lines, cap_debug l message data w = Logged lines) /\
    (exists lines, cap_info l message data w = Logged lines) /\
    (exists lines, cap_warn l message data w = Logged lines) /\
    (exists lines, cap_error l message data w = Logged lines).

(** ** The specification's vocabulary *)

(** The three error kinds of the specification. *)
Inductive PipelineErrorKind : Set := ServerError | NoResponseError | RequestSetupError.

(** The classification algorithm in the specification's words: a
    response means [ServerError], else a request means [NoResponseError],
    else [RequestSetupError]. *)
Definition classify (error : ErrObj) : PipelineErrorKind :=
  match err_response error with
  | Some _ => ServerError
  | None => if truthy (err_request error) then NoResponseError else RequestSetupError
  end.

(** The kind of an error raised by the client. The client raises plain
    [Error] objects; the kind shows in the form of the message. *)
Definition error_kind (e : ErrObj) : option PipelineErrorKind :=
  if Js.startsWith "API Error: " (err_message e) then Some ServerError
  else if String.eqb (err_message e) "Network Error: No response received"
  then Some NoResponseError
  else if Js.startsWith "Request Error: " (err_message e) then Some RequestSetupError
  else None.

(** A property read [e[name]] on an error raised by the client, that
    is, on an object made by [new Error(message)]: it has [message] and
    the inherited [name] (the engine's [stack] is left out); [request]
    and [response] read the fields of the record, absent on such an
    object; every other property is [undefined]. *)
Definition get_property (e : ErrObj) (name : string) : JsAny :=
  if String.eqb name "message" then JStr (err_message e)
  else if String.eqb name "name" then JStr "Error"
  else if String.eqb name "request" then err_request e
  else if String.eqb name "response" then
    match err_response e with
    | Some r => JObj [("data", resp_data r); ("status", JNum (resp_status r));
                      ("statusText", JStr (resp_statusText r)); ("headers", resp_headers r)]
    | None => JUndefined
    end
  else JUndefined.

(** Reading a run of decimal digits at the head of a string. *)
Fixpoint read_digits (acc : option Z) (s : string) : option Z :=
  match s with
  | EmptyString => acc
  | String c rest =>
      let n := Z.of_N (N_of_ascii c) in
      if ((48 <=? n) && (n <=? 57))%Z
      then read_digits (Some (10 * default 0%Z acc + (n - 48))%Z) rest
      else acc
  end.

Fixpoint drop_chars (n : nat) (s : string) : string :=
  match n, s with
  | O, _ => s
  | S n', String _ rest => drop_chars n' rest
  | S _, EmptyString => EmptyString
  end.

(** The status code written in the message of a server error, after
    the words [API Error: ]. *)
Definition status_in_message (message : string) : option Z :=
  if Js.startsWith "API Error: " message
  then read_digits None (drop_chars (String.length "API Error: ") message)
  else None.

(** ** Sample environments *)

Definition sample_config : TestConfig :=
  {| apiBaseUrl := "http://localhost:3000/api"; testEnv := "development";
     apiTimeout := 30000; apiRetryAttempts := 3 |}.

Definition sample_clock {W} : W -> string := fun _ => "2024-01-01T00:00:00.000Z".

Definition sample_response (code : Z) (text : string) (body : JsVal) (request : InternalRequestConfig)
    : AxiosResponse :=
  {| resp_data := body; resp_status := code; resp_statusText := text;
     resp_headers := JObj [("content-type", JStr "application/json")];
     resp_config := request; resp_request := JObj [] |}.

(** A server answering every request with 200 and a page of users. *)
Definition transport_ok {W} (request : InternalRequestConfig) (w : W)
    : Completion ErrObj AxiosResponse * W :=
  (Normal (sample_response 200 "OK" (JObj [("page", JNum 2); ("per_page", JNum 3)]) request), w).

(** A server answering every request with 404 and an empty object: the
    transport rejects with a failure that carries the response. *)
Definition failure_404 (request : InternalRequestConfig) : ErrObj :=
  {| err_message := "Request failed with status code 404";
     err_response := Some (sample_response 404 "Not Found" (JObj []) request);
     err_request := Cyclic " --> starting at object with constructor 'ClientRequest'";
     err_config := Some request;
     err_json := JObj [("message", JStr "Request failed with status code 404")] |}.

Definition transport_404 {W} (request : InternalRequestConfig) (w : W)
    : Completion ErrObj AxiosResponse * W :=
  (Throw (failure_404 request), w).

(** A failure before anything was sent. *)
Definition failure_setup : ErrObj :=
  {| err_message := "Invalid URL"; err_response := None; err_request := JUndefined;
     err_config := None; err_json := JObj [("message", JStr "Invalid URL")] |}.

(** A transport that fails before anything is sent. *)
Definition transport_setup_failure (request : InternalRequestConfig) (w : unit)
    : Completion ErrObj AxiosResponse * unit :=
  (Throw failure_setup, w).

(** Per-call options that carry their own [Authorization] header. *)
Definition basic_auth_config : AxiosRequestConfig :=
  {| cfg_baseURL := None; cfg_timeout := None;
     cfg_headers := {[ "Authorization" := "Basic dXNlcjpwYXNz" ]};
     cfg_data := JUndefined |}.

Definition lowercase_auth_config : AxiosRequestConfig :=
  {| cfg_baseURL := None; cfg_timeout := None;
     cfg_headers := {[ "authorization" := "Basic dXNlcjpwYXNz" ]};
     cfg_data := JUndefined |}.

(** A logger that does nothing, and one whose every call throws. *)
Definition noop_logger {W} : LoggerCap W :=
  {| cap_debug := fun _ _ _ => Logged []; cap_info := fun _ _ _ => Logged [];
     cap_warn := fun _ _ _ => Logged []; cap_error := fun _ _ _ => Logged [] |}.

Definition logger_failure : ErrObj := new_Error "log sink closed".

Definition throwing_logger {W} : LoggerCap W :=
  {| cap_debug := fun _ _ _ => LogThrew logger_failure;
     cap_info := fun _ _ _ => LogThrew logger_failure;
     cap_warn := fun _ _ _ => LogThrew logger_failure;
     cap_error := fun _ _ _ => LogThrew logger_failure |}.

Definition with_logger {W} (l : LoggerCap W) (rt : Runtime W) : Runtime W :=
  {| rt_transport := rt_transport rt; rt_logger := l |}.

(** An operation on a counter: it rejects while the counter is below
    [failures] and resolves with the counter afterwards. *)
Definition flaky (failures : nat) (w : nat) : Completion Thrown nat * nat :=
  if (w <? failures)%nat
  then (Throw (ThrownObject (new_Error ("failure " +:+ pretty w))), S w)
  else (Normal w, S w).

(** An operation that rejects on every call. *)
Definition always_failing (w : nat) : Completion Thrown nat * nat :=
  (Throw (ThrownObject (new_Error ("failure " +:+ pretty w))), S w).

Definition initial {W} (w : W) : St W := mkSt w [].

(** The message of the error that [handleError] builds for a thrown
    object, as a function of that object alone. *)
Definition handled_message (error : ErrObj) : string :=
  match err_response error with
  | Some response =>
      ("API Error: " +:+ pretty (resp_status response) +:+ " " +:+ resp_statusText response)
      +:+ " - " +:+ Js.template (Js.JSON_stringify (resp_data response))
  | None =>
      if truthy (err_request error) then "Network Error: No response received"
      else "Request Error: " +:+ err_message error
  end.

(** The outcome of a verb method, given what the transport did. *)
Definition outcome_of (r : Completion ErrObj AxiosResponse) : Completion ErrObj ApiResponse :=
  match r with
  | Normal response => Normal (formatResponse response)
  | Throw error => Throw (new_Error (handled_message error))
  end.

(** ** Further parts of the harness *)

(** The console lines of a trace, in order. *)
Definition console (tr : list Event) : list string :=
  flat_map (fun ev => match ev with EvConsole line => [line] | _ => [] end) tr.

Definition sum_Z (l : list Z) : Z := foldr Z.add 0%Z l.

(** [process.env.NAME || fallback]: an unset variable and an empty one
    both give the fallback. *)
Definition env_or (value : option string) (fallback : string) : string :=
  match value with
  | Some v => if String.eqb v "" then fallback else v
  | None => fallback
  end.

(** [testConfig] of [src/config/test.config.ts], for the fields the
    client and the logger read. The two numeric fields are the results of
    [parseInt] and are given. *)
Definition testConfig_of (env : string -> option string) (timeout retryAttempts : Z)
    : TestConfig :=
  {| apiBaseUrl := env_or (env "API_BASE_URL") "http://localhost:3000/api";
     testEnv := env_or (env "TEST_ENV") "development";
     apiTimeout := timeout;
     apiRetryAttempts := retryAttempts |}.


(** A transport that counts the requests it rejects with a 404. *)
Definition transport_counting_404 (request : InternalRequestConfig) (w : nat)
    : Completion ErrObj AxiosResponse * nat :=
  (Throw (failure_404 request), S w).

(** A failure after the request was sent and no answer came. *)
Definition failure_timeout : ErrObj :=
  {| err_message := "timeout of 30000ms exceeded"; err_response := None;
     err_request := JObj []; err_config := None;
     err_json := JObj [("message", JStr "timeout of 30000ms exceeded")] |}.

Definition transport_timeout (request : InternalRequestConfig) (w : unit)
    : Completion ErrObj AxiosResponse * unit :=
  (Throw failure_timeout, w).



(** ** [ReqResApiClient] (the client of the demo API, a subclass of
    [ApiClient]) *)

Module ReqResApiClient.

(** [constructor() { super('https://reqres.in/api') }] *)
Definition constructor (testConfig : TestConfig) : ApiClient :=
  constructor testConfig (Some "https://reqres.in/api").

Section Endpoints.
Context {W : Type}.
Variable testConfig : TestConfig.
Variable now : W -> string.
Variable transport : InternalRequestConfig -> W -> Completion ErrObj AxiosResponse * W.

Let rt : Runtime W := runtime testConfig now transport.

(** [getUsers(page = 1, perPage = 6)] *)
Definition getUsers (self : ApiClient) (page perPage : option Z) : M W ErrObj ApiResponse :=
  let page := default 1%Z page in
  let perPage := default 6%Z perPage in
  get rt self ("/users?page=" +:+ pretty page +:+ "&per_page=" +:+ pretty perPage) None.

Definition getUserById (self : ApiClient) (id : Z) : M W ErrObj ApiResponse :=
  get rt self ("/users/" +:+ pretty id) None.

Definition createUser (self : ApiClient) (userData : JsVal) : M W ErrObj ApiResponse :=
  post rt self "/users" userData None.

Definition updateUser (self : ApiClient) (id : Z) (userData : JsVal) : M W ErrObj ApiResponse :=
  put rt self ("/users/" +:+ pretty id) userData None.

Definition patchUser (self : ApiClient) (id : Z) (userData : JsVal) : M W ErrObj ApiResponse :=
  patch rt self ("/users/" +:+ pretty id) userData None.

Definition deleteUser (self : ApiClient) (id : Z) : M W ErrObj ApiResponse :=
  delete rt self ("/users/" +:+ pretty id) None.

Definition login (self : ApiClient) (email password : string) : M W ErrObj ApiResponse :=
  post rt self "/login" (JObj [("email", JStr email); ("password", JStr password)]) None.

Definition register (self : ApiClient) (email password : string) : M W ErrObj ApiResponse :=
  post rt self "/register" (JObj [("email", JStr email); ("password", JStr password)]) None.

Definition getResources (self : ApiClient) : M W ErrObj ApiResponse :=
  get rt self "/unknown" None.

Definition getResourceById (self : ApiClient) (id : Z) : M W ErrObj ApiResponse :=
  get rt self ("/unknown/" +:+ pretty id) None.

(** [await call] followed by a read of property [k] of [response.data]
    (and of [response.data.data] when [inner] is set); the read throws a
    [TypeError] on [undefined] and [null]. *)
Definition read_body (call : M W ErrObj ApiResponse) (inner : bool) : M W ErrObj JsVal :=
  fun s => match call s with
           | (Normal response, s') =>
               if inner then
                 match prop (data response) "data" with
                 | Some v => (Normal v, s')
                 | None => (Throw (TypeError_read (data response) "data"), s')
                 end
               else (Normal (data response), s')
           | (Throw error, s') => (Throw error, s')
           end.

(** A computation of the client taken as the operation of [withRetry]:
    what it throws are error objects. *)
Definition as_operation {T} (m : M W ErrObj T) : St W -> Completion Thrown T * St W :=
  fun s => match m s with
           | (Normal v, s') => (Normal v, s')
           | (Throw error, s') => (Throw (ThrownObject error), s')
           end.

(** The retry wrapper around an operation of the client: the world of
    the wrapper is the state of the client's calls, and its logger is the
    repository's, reading the clock of the inner world. *)
Let rt_retry : Runtime (St W) :=
  runtime testConfig (fun s => now (world s)) (dispatchRequest rt).

(** [getUserWithRetry(id, maxAttempts = 3)]:
    [withRetry(async () => (await getUserById(id)).data.data, maxAttempts)] *)
Definition getUserWithRetry (self : ApiClient) (id : Z) (maxAttempts : option Z) :=
  withRetry rt_retry (as_operation (read_body (getUserById self id) true)) testConfig
    (Some (default 3%Z maxAttempts)) None.

(** [createUserWithRetry(userData, maxAttempts = 3)]:
    [withRetry(async () => (await createUser(userData)).data, maxAttempts)] *)
Definition createUserWithRetry (self : ApiClient) (userData : JsVal) (maxAttempts : option Z) :=
  withRetry rt_retry (as_operation (read_body (createUser self userData) false)) testConfig
    (Some (default 3%Z maxAttempts)) None.

End Endpoints.

(** One conjunct [user.k && typeof user.k === ...] of the validation
    helpers, for a property read that did not throw. *)
Definition nonempty_string (v : JsVal) : bool := truthy_value v && is_string v.
Definition nonzero_number (v : JsVal) : bool := truthy_value v && is_number v.

(** [validateUser(user)]; [None] is the [TypeError] of reading a
    property of [undefined] or [null]. *)
Definition validateUser (user : JsVal) : option bool :=
  id ← prop user "id";
  email ← prop user "email";
  first_name ← prop user "first_name";
  last_name ← prop user "last_name";
  avatar ← prop user "avatar";
  Some (truthy_value id && truthy_value email && truthy_value first_name && truthy_value last_name && truthy_value avatar
        && is_number id && is_string email && is_string first_name
        && is_string last_name && is_string avatar).

Definition validateCreateUserResponse (response : JsVal) : option bool :=
  name ← prop response "name";
  job ← prop response "job";
  id ← prop response "id";
  createdAt ← prop response "createdAt";
  Some (truthy_value name && truthy_value job && truthy_value id && truthy_value createdAt
        && is_string name && is_string job && is_string id && is_string createdAt).

Definition validateUpdateUserResponse (response : JsVal) : option bool :=
  name ← prop response "name";
  job ← prop response "job";
  updatedAt ← prop response "updatedAt";
  Some (truthy_value name && truthy_value job && truthy_value updatedAt
        && is_string name && is_string job && is_string updatedAt).

End ReqResApiClient.

(** ** What the repository's client does with a transport failure *)

(** A logging capability that does not throw on data that can be
    serialised. *)
Definition never_throws_plain {W} (l : LoggerCap W) : Prop :=
  forall message (data : JsVal) w,
    (exists lines, cap_debug l message data w = Logged lines) /\
    (exists lines, cap_info l message data w = Logged lines) /\
    (exists lines, cap_warn l message data w = Logged lines) /\
    (exists lines, cap_error l message data w = Logged lines).

(** A failure whose logging in [handleError] serialises no object with a
    cycle: it carries a response (the response is logged), or its
    request object can be serialised. *)
Definition loggable (error : ErrObj) : bool :=
  match err_response error, err_request error with
  | None, Cyclic _ => false
  | _, _ => true
  end.

(** What a verb method of the repository's client throws for a failure
    of the transport: the [Error] built by [handleError], or, for a
    failure without response whose request object has a cycle, the
    [TypeError] that [JSON.stringify] throws inside [logger.error]. *)
Definition raised_for (error : ErrObj) : ErrObj :=
  match err_response error, err_request error with
  | None, Cyclic description => TypeError_circular description
  | _, _ => new_Error (handled_message error)
  end.

Definition client_outcome (r : Completion ErrObj AxiosResponse)
    : Completion ErrObj ApiResponse :=
  match r with
  | Normal response => Normal (formatResponse response)
  | Throw error => Throw (raised_for error)
  end.

(** The data logged by the response interceptor for a failure. *)
Definition response_error_details (error : ErrObj) : JsVal :=
  JObj [("status", from_option (fun r => JNum (resp_status r)) JUndefined (err_response error));
        ("statusText", from_option (fun r => JStr (resp_statusText r)) JUndefined
                         (err_response error));
        ("data", from_option resp_data JUndefined (err_response error));
        ("url", from_option (fun c => JStr (req_url c)) JUndefined (err_config error))].

(** The message and the data that [handleError] logs for a failure. *)
Definition handled_log_message (error : ErrObj) : string :=
  match err_response error with
  | Some response =>
      "API Error: " +:+ pretty (resp_status response) +:+ " " +:+ resp_statusText response
  | None =>
      if truthy (err_request error) then "Network Error: No response received"
      else "Request Error: " +:+ err_message error
  end.

Definition handled_log_data (error : ErrObj) : JsAny :=
  match err_response error with
  | Some response =>
      Plain (JObj [("status", JNum (resp_status response));
                   ("statusText", JStr (resp_statusText response));
                   ("data", resp_data response)])
  | None => if truthy (err_request error) then err_request error else Plain (err_json error)
  end.

(** [undefined] and [null] as rejections. *)
Definition nullish (x : Thrown) : bool :=
  match x with
  | ThrownValue JUndefined | ThrownValue JNull => true
  | _ => false
  end.

(** The world after the transport has answered the request [request]
    [k] times in a row. *)
Fixpoint answered {W} (transport : InternalRequestConfig -> W -> Completion ErrObj AxiosResponse * W)
    (request : InternalRequestConfig) (k : nat) (w : W) : W :=
  match k with
  | O => w
  | S k' => answered transport request k' (snd (transport request w))
  end.

(** The console line of a logger call without data. *)
Definition log_line {W} (now : W -> string) (level message : string) (w : W) : string :=
  "[" +:+ now w +:+ "] [" +:+ level +:+ "] " +:+ message +:+ "".

(** The console line of [logger.warn] for a failed attempt whose
    rejection has the message [message]. *)
Definition warn_line {W} (now : W -> string) (attempt : Z) (message : string) (w : W)
    : string :=
  log_line now "WARN" ("Attempt " +:+ pretty attempt +:+ " failed: " +:+ message) w.

(** A refused connection as the http adapter reports it: no response,
    and a request object that points to its socket and back. *)
Definition failure_refused : ErrObj :=
  {| err_message := "connect ECONNREFUSED 127.0.0.1:3000"; err_response := None;
     err_request := Cyclic " --> starting at object with constructor 'ClientRequest'";
     err_config := None;
     err_json := JObj [("message", JStr "connect ECONNREFUSED 127.0.0.1:3000")] |}.

Definition transport_refused {W} (request : InternalRequestConfig) (w : W)
    : Completion ErrObj AxiosResponse * W :=
  (Throw failure_refused, w).

(** Operations on a counter that reject with [undefined], and with
    [null] until the counter reaches [failures]. *)
Definition rejecting_undefined (w : nat) : Completion Thrown nat * nat :=
  (Throw (ThrownValue JUndefined), S w).

Definition flaky_null (failures : nat) (w : nat) : Completion Thrown nat * nat :=
  if (w <? failures)%nat then (Throw (ThrownValue JNull), S w) else (Normal w, S w).

(** A logger that prints its message and nothing else. *)
Definition echo_logger {W} : LoggerCap W :=
  {| cap_debug := fun message _ _ => Logged [message];
     cap_info := fun message _ _ => Logged [message];
     cap_warn := fun message _ _ => Logged [message];
     cap_error := fun message _ _ => Logged [message] |}.

(** * Properties *)

Example stringify_object :
  Js.JSON_stringify (JObj [("page", JNum 2); ("skip", JUndefined); ("data", JArr [JStr "a"; JNull])])
  = Some ("{" +:+ Js.quote "page" +:+ ":2," +:+ Js.quote "data" +:+ ":[" +:+ Js.quote "a" +:+ ",null]}").
Proof. vm_compute. reflexivity. Qed.

Example stringify_404_body : Js.JSON_stringify (JObj []) = Some "{}".
Proof. reflexivity. Qed.

(** ** Logging calls that do not throw *)

Lemma dispatched_app (tr1 tr2 : list Event) :
  dispatched (tr1 ++ tr2) = (dispatched tr1 ++ dispatched tr2)%list.
Proof. unfold dispatched. apply flat_map_app. Qed.

Lemma dispatched_console (lines : list string) : dispatched (List.map EvConsole lines) = [].
Proof. induction lines as [|l lines IH]; [reflexivity | exact IH]. Qed.

Lemma dispatched_cons (c : InternalRequestConfig) (tr : list Event) :
  dispatched (EvDispatch c :: tr) = c :: dispatched tr.
Proof. reflexivity. Qed.

Ltac count_dispatches :=
  rewrite <- ?app_assoc;
  rewrite ?dispatched_app, ?dispatched_cons, ?dispatched_console, ?app_nil_r;
  reflexivity.

Section Quiet.
Context {W : Type}.
Variable rt : Runtime W.
Hypothesis quiet : never_throws_plain (rt_logger rt).

Lemma do_log_debug_quiet message (data : JsVal) (s : St W) :
  exists lines, do_log (cap_debug (rt_logger rt)) message data s
                = (Normal tt, mkSt (world s) (trace s ++ List.map EvConsole lines)).
Proof.
  destruct (quiet message data (world s)) as ([lines Hl] & _).
  exists lines. unfold do_log. now rewrite Hl.
Qed.

Lemma do_log_warn_quiet message (data : JsVal) (s : St W) :
  exists lines, do_log (cap_warn (rt_logger rt)) message data s
                = (Normal tt, mkSt (world s) (trace s ++ List.map EvConsole lines)).
Proof.
  destruct (quiet message data (world s)) as (_ & _ & [lines Hl] & _).
  exists lines. unfold do_log. now rewrite Hl.
Qed.

Lemma do_log_error_quiet message (data : JsVal) (s : St W) :
  exists lines, do_log (cap_error (rt_logger rt)) message data s
                = (Normal tt, mkSt (world s) (trace s ++ List.map EvConsole lines)).
Proof.
  destruct (quiet message data (world s)) as (_ & _ & _ & [lines Hl]).
  exists lines. unfold do_log. now rewrite Hl.
Qed.

Ltac log_step :=
  match goal with
  | |- context [do_log (cap_debug (rt_logger rt)) ?m (Plain ?d) ?s] =>
      let l := fresh "lines" in
      destruct (do_log_debug_quiet m d s) as [l ->]; cbn [world trace]
  | |- context [do_log (cap_error (rt_logger rt)) ?m (Plain ?d) ?s] =>
      let l := fresh "lines" in
      destruct (do_log_error_quiet m d s) as [l ->]; cbn [world trace]
  end.

(** With a logger that does not throw on serialisable data,
    [handleError] returns an [Error] with the message [handled_message]
    for a failure that is [loggable], and only prints. *)
Lemma handleError_quiet (error : ErrObj) (s : St W) :
  loggable error = true ->
  exists lines,
    handleError rt error s
    = (Normal (new_Error (handled_message error)),
       mkSt (world s) (trace s ++ List.map EvConsole lines)).
Proof.
  intros Hlog.
  unfold handleError, handled_message, mbind, M_bind, bind, mret, M_ret, ret.
  unfold loggable in Hlog.
  destruct (err_response error) as [response|].
  - log_step. eexists. reflexivity.
  - destruct (err_request error) as [v|description]; [|discriminate].
    destruct (truthy (Plain v)); log_step; eexists; reflexivity.
Qed.

Lemma request_fulfilled_quiet (config : InternalRequestConfig) (s : St W) :
  exists lines,
    request_fulfilled (setupInterceptors rt) config s
    = (Normal config, mkSt (world s) (trace s ++ List.map EvConsole lines)).
Proof.
  unfold setupInterceptors, request_fulfilled, mbind, M_bind, bind, mret, M_ret, ret.
  log_step. destruct (truthy (req_data config)).
  - log_step. exists (lines ++ lines0)%list. now rewrite List.map_app, app_assoc.
  - now exists lines.
Qed.

Lemma response_fulfilled_quiet (response : AxiosResponse) (s : St W) :
  exists lines,
    response_fulfilled (setupInterceptors rt) response s
    = (Normal response, mkSt (world s) (trace s ++ List.map EvConsole lines)).
Proof.
  unfold setupInterceptors, response_fulfilled, mbind, M_bind, bind, mret, M_ret, ret.
  do 2 log_step. exists (lines ++ lines0)%list. now rewrite List.map_app, app_assoc.
Qed.

Lemma response_rejected_quiet (error : ErrObj) (s : St W) :
  exists lines,
    response_rejected (setupInterceptors rt) error s
    = (Throw error, mkSt (world s) (trace s ++ List.map EvConsole lines)).
Proof.
  unfold setupInterceptors, response_rejected, mbind, M_bind, bind, throw.
  log_step. now exists lines.
Qed.

(** With a logger that does not throw on serialisable data, a request
    goes to the transport exactly once and the call completes as the
    transport did. *)
Lemma Axios_request_quiet (self : AxiosInstance) (m : Method) (url : string)
    (body : JsVal) (config : option AxiosRequestConfig) (s : St W) :
  let request := mergeConfig (defaults self) m url body config in
  exists before after,
    Axios_request rt self m url body config s
    = (fst (rt_transport rt request (world s)),
       mkSt (snd (rt_transport rt request (world s)))
            (trace s ++ List.map EvConsole before ++ EvDispatch request
                     :: List.map EvConsole after)).
Proof.
  intros request. unfold Axios_request, then_. fold request.
  unfold mret at 1. unfold M_ret, ret.
  destruct (request_fulfilled_quiet request s) as [before ->].
  unfold dispatchRequest. cbn [world trace].
  destruct (rt_transport rt request (world s)) as [[response|error] w'].
  - edestruct response_fulfilled_quiet as [after ->]. cbn [world trace fst snd].
    exists before, after. now rewrite <- !app_assoc.
  - edestruct response_rejected_quiet as [after ->]. cbn [world trace fst snd].
    exists before, after. now rewrite <- !app_assoc.
Qed.

(** The verb methods, in terms of the transport and of what
    [handleError] does next. *)
Lemma call_verb_run (m : Method) (self : ApiClient) (url : string) (body : JsVal)
    (config : option AxiosRequestConfig) (s : St W) :
  let request := verb_request m self url body config in
  exists before after,
    call_verb rt m self url body config s
    = let tr := (trace s ++ List.map EvConsole before ++ EvDispatch request
                         :: List.map EvConsole after)%list in
      match rt_transport rt request (world s) with
      | (Normal response, w') => (Normal (formatResponse response), mkSt w' tr)
      | (Throw error, w') =>
          match handleError rt error (mkSt w' tr) with
          | (Normal raised, s') => (Throw raised, s')
          | (Throw x, s') => (Throw x, s')
          end
      end.
Proof.
  intros request.
  assert (Hv : forall data,
    request = mergeConfig (defaults (client self)) m url data config ->
    exists before after,
      verb rt (Axios_request rt (client self) m url data config) s
      = let tr := (trace s ++ List.map EvConsole before ++ EvDispatch request
                           :: List.map EvConsole after)%list in
        match rt_transport rt request (world s) with
        | (Normal response, w') => (Normal (formatResponse response), mkSt w' tr)
        | (Throw error, w') =>
            match handleError rt error (mkSt w' tr) with
            | (Normal raised, s') => (Throw raised, s')
            | (Throw x, s') => (Throw x, s')
            end
        end).
  { intros data ->. unfold verb, try_catch, mbind, M_bind, bind.
    destruct (Axios_request_quiet (client self) m url data config s) as (before & after & ->).
    exists before, after. cbn zeta.
    destruct (rt_transport rt _ (world s)) as [[response|error] w']; cbn [fst snd];
      [reflexivity|].
    destruct (handleError rt error _) as [[raised|x] s']; reflexivity. }
  destruct m; apply Hv; reflexivity.
Qed.

(** A verb call whose transport resolved. *)
Lemma call_verb_resolved (m : Method) (self : ApiClient) (url : string) (body : JsVal)
    (config : option AxiosRequestConfig) (s : St W) (response : AxiosResponse) (w' : W) :
  rt_transport rt (verb_request m self url body config) (world s) = (Normal response, w') ->
  exists ext,
    call_verb rt m self url body config s
    = (Normal (formatResponse response), mkSt w' (trace s ++ ext))
    /\ dispatched ext = [verb_request m self url body config].
Proof.
  intros Ht.
  destruct (call_verb_run m self url body config s) as (before & after & ->).
  cbn zeta. rewrite Ht. eexists. split; [reflexivity|].
  count_dispatches.
Qed.

(** A verb call whose transport rejected with a failure that is
    [loggable]. *)
Lemma call_verb_loggable (m : Method) (self : ApiClient) (url : string) (body : JsVal)
    (config : option AxiosRequestConfig) (s : St W) (error : ErrObj) (w' : W) :
  rt_transport rt (verb_request m self url body config) (world s) = (Throw error, w') ->
  loggable error = true ->
  exists ext,
    call_verb rt m self url body config s
    = (Throw (new_Error (handled_message error)), mkSt w' (trace s ++ ext))
    /\ dispatched ext = [verb_request m self url body config].
Proof.
  intros Ht Hlog.
  destruct (call_verb_run m self url body config s) as (before & after & ->).
  cbn zeta. rewrite Ht.
  edestruct (handleError_quiet error) as [lines ->]; [exact Hlog|]. cbn [world trace].
  eexists. split; [rewrite <- !app_assoc; reflexivity|].
  count_dispatches.
Qed.

End Quiet.

(** A logger that never throws does not throw on serialisable data. *)
Lemma never_throws_is_plain {W} (l : LoggerCap W) : never_throws l -> never_throws_plain l.
Proof. intros H message data w. apply H. Qed.

(** With a logger that never throws, every failure is handled. *)
Lemma handleError_total {W} (rt : Runtime W) (error : ErrObj) (s : St W) :
  never_throws (rt_logger rt) ->
  exists lines,
    handleError rt error s
    = (Normal (new_Error (handled_message error)),
       mkSt (world s) (trace s ++ List.map EvConsole lines)).
Proof.
  intros Hq.
  destruct (err_response error) as [response|] eqn:Hresp.
  - apply handleError_quiet; [now apply never_throws_is_plain|].
    unfold loggable. now rewrite Hresp.
  - unfold handleError, handled_message, mbind, M_bind, bind, mret, M_ret, ret.
    rewrite Hresp. unfold do_log.
    destruct (truthy (err_request error)).
    + destruct (Hq "Network Error: No response received" (err_request error) (world s))
        as (_ & _ & _ & [lines ->]).
      now exists lines.
    + destruct (Hq ("Request Error: " +:+ err_message error) (Plain (err_json error)) (world s))
        as (_ & _ & _ & [lines ->]).
      now exists lines.
Qed.

(** The verb methods, for a logger that never throws. *)
Lemma call_verb_quiet {W} (rt : Runtime W) (m : Method) (self : ApiClient) (url : string)
    (body : JsVal) (config : option AxiosRequestConfig) (s : St W) :
  never_throws (rt_logger rt) ->
  let request := verb_request m self url body config in
  exists ext,
    call_verb rt m self url body config s
    = (outcome_of (fst (rt_transport rt request (world s))),
       mkSt (snd (rt_transport rt request (world s))) (trace s ++ ext))
    /\ dispatched ext = [request].
Proof.
  intros Hq request.
  destruct (call_verb_run rt (never_throws_is_plain _ Hq) m self url body config s)
    as (before & after & ->).
  cbn zeta. fold request.
  destruct (rt_transport rt request (world s)) as [[response|error] w']; cbn [fst snd outcome_of].
  - eexists. split; [reflexivity|].
    count_dispatches.
  - edestruct (handleError_total rt error) as [lines ->]; [exact Hq|]. cbn [world trace].
    eexists. split; [rewrite <- !app_assoc; reflexivity|].
    count_dispatches.
Qed.

(** The repository's own logger does not throw on serialisable data. *)
Lemma logger_never_throws {W} (now : W -> string) (self : Logger.t) :
  never_throws_plain (Logger.cap now self).
Proof.
  intros message data w. cbn.
  unfold Logger.debug, Logger.info, Logger.warn, Logger.error, Logger.log, Logger.formatMessage.
  cbn [JSON_stringify_any].
  repeat split; destruct (_ <=? _)%Z; destruct (truthy data); eexists; reflexivity.
Qed.

Lemma runtime_quiet {W} testConfig (now : W -> string) transport :
  never_throws_plain (rt_logger (runtime testConfig now transport)).
Proof. apply logger_never_throws. Qed.

(** It throws the [TypeError] of [JSON.stringify] when [error] is given
    an object with a cycle. *)
Lemma logger_error_cyclic {W} testConfig (now : W -> string) transport
    (message description : string) (s : St W) :
  do_log (cap_error (rt_logger (runtime testConfig now transport))) message
    (Cyclic description) s
  = (Throw (TypeError_circular description), s).
Proof.
  unfold do_log, runtime, logger. cbn [rt_logger Logger.cap cap_error].
  unfold Logger.error, Logger.log, Logger.formatMessage. cbn [truthy JSON_stringify_any].
  destruct (String.eqb (testEnv testConfig) "development"); reflexivity.
Qed.

(** [handleError] of the repository's client on a failure without
    response whose request object has a cycle. *)
Lemma handleError_cyclic {W} testConfig (now : W -> string) transport
    (error : ErrObj) (description : string) (s : St W) :
  err_response error = None ->
  err_request error = Cyclic description ->
  handleError (runtime testConfig now transport) error s
  = (Throw (TypeError_circular description), s).
Proof.
  intros Hresp Hreq.
  unfold handleError, mbind, M_bind, bind. rewrite Hresp, Hreq. cbn [truthy].
  now rewrite logger_error_cyclic.
Qed.

(** The verb methods of the repository's client: the outcome follows
    the transport, the world is left as the transport left it, and
    exactly one request is handed over. *)
Lemma call_verb_client {W} testConfig (now : W -> string) transport
    (m : Method) (self : ApiClient) (url : string) (body : JsVal)
    (config : option AxiosRequestConfig) (s : St W) :
  let request := verb_request m self url body config in
  exists ext,
    call_verb (runtime testConfig now transport) m self url body config s
    = (client_outcome (fst (transport request (world s))),
       mkSt (snd (transport request (world s))) (trace s ++ ext))
    /\ dispatched ext = [request].
Proof.
  intros request.
  destruct (call_verb_run _ (runtime_quiet testConfig now transport) m self url body config s)
    as (before & after & ->).
  cbn zeta. fold request. cbn [rt_transport runtime].
  destruct (transport request (world s)) as [[response|error] w'];
    cbn [fst snd client_outcome].
  - eexists. split; [reflexivity|].
    count_dispatches.
  - unfold raised_for.
    destruct (err_response error) as [response|] eqn:Hresp;
      [|destruct (err_request error) as [v|description] eqn:Hreq].
    + edestruct (handleError_quiet _ (runtime_quiet testConfig now transport) error)
        as [lines ->]; [unfold loggable; now rewrite Hresp|]. cbn [world trace].
      eexists. split; [rewrite <- !app_assoc; reflexivity|].
      count_dispatches.
    + edestruct (handleError_quiet _ (runtime_quiet testConfig now transport) error)
        as [lines ->]; [unfold loggable; now rewrite Hresp, Hreq|]. cbn [world trace].
      eexists. split; [rewrite <- !app_assoc; reflexivity|].
      count_dispatches.
    + rewrite (handleError_cyclic testConfig now transport error description _ Hresp Hreq).
      eexists. split; [reflexivity|].
      count_dispatches.
Qed.

(** The requests issued by a verb call of the repository's client. *)
Lemma issued_client {W} testConfig (now : W -> string) transport
    (m : Method) (self : ApiClient) (url : string) (body : JsVal)
    (config : option AxiosRequestConfig) (s : St W) :
  issued (call_verb (runtime testConfig now transport) m self url body config) s
  = [verb_request m self url body config].
Proof.
  unfold issued.
  destruct (call_verb_client testConfig now transport m self url body config s)
    as (ext & -> & Hd).
  cbn [snd trace]. now rewrite drop_app_length.
Qed.

(** The requests issued by a verb call under a logger that never
    throws. *)
Lemma issued_quiet {W} (rt : Runtime W) (m : Method) (self : ApiClient) (url : string)
    (body : JsVal) (config : option AxiosRequestConfig) (s : St W) :
  never_throws (rt_logger rt) ->
  issued (call_verb rt m self url body config) s = [verb_request m self url body config].
Proof.
  intros Hq. unfold issued.
  destruct (call_verb_quiet rt m self url body config s Hq) as (ext & -> & Hd).
  cbn [snd trace]. now rewrite drop_app_length.
Qed.

(** ** Strings *)

Lemma append_assoc (s t u : string) : (s +:+ t) +:+ u = s +:+ t +:+ u.
Proof.
  induction s as [|c s IH]; [reflexivity|].
  change (String c ((s +:+ t) +:+ u) = String c (s +:+ t +:+ u)). now rewrite IH.
Qed.

Lemma startsWith_append (p s : string) : Js.startsWith p (p +:+ s) = true.
Proof.
  induction p as [|c p IH]; [reflexivity|].
  change (Js.startsWith (String c p) (String c (p +:+ s)) = true).
  cbn [Js.startsWith]. now rewrite Ascii.eqb_refl.
Qed.

Lemma drop_chars_append (p s : string) : drop_chars (String.length p) (p +:+ s) = s.
Proof.
  induction p as [|c p IH]; [reflexivity|].
  change (drop_chars (S (String.length p)) (String c (p +:+ s)) = s). exact IH.
Qed.

(** Reading digits stops at the first blank, whatever follows it. *)
Lemma read_digits_blank (d rest : string) (acc : option Z) :
  read_digits acc (d +:+ String " " rest) = read_digits acc (d +:+ " ").
Proof.
  revert acc. induction d as [|c d IH]; intros acc; [reflexivity|].
  change (read_digits acc (String c (d +:+ String " " rest))
          = read_digits acc (String c (d +:+ " "))).
  cbn [read_digits]. destruct (_ && _); [apply IH | reflexivity].
Qed.

(** Every status code from 400 to 599 is read back from its decimal text. *)
Lemma read_digits_status (z : Z) :
  (400 <= z <= 599)%Z -> read_digits None (pretty z +:+ " ") = Some z.
Proof.
  intros Hz.
  assert (Hall : forallb (fun z => match read_digits None (pretty z +:+ " ") with
                                   | Some y => (y =? z)%Z
                                   | None => false
                                   end) (seqZ 400 200) = true)
    by (vm_compute; reflexivity).
  rewrite forallb_forall in Hall. specialize (Hall z).
  destruct (read_digits None (pretty z +:+ " ")) as [y|].
  - f_equal. apply Z.eqb_eq, Hall, list_elem_of_In, elem_of_seqZ. lia.
  - discriminate Hall. apply list_elem_of_In, elem_of_seqZ. lia.
Qed.

Lemma status_in_message_server (z : Z) (text tail : string) :
  (400 <= z <= 599)%Z ->
  status_in_message (("API Error: " +:+ pretty z +:+ " " +:+ text) +:+ tail) = Some z.
Proof.
  intros Hz. unfold status_in_message.
  rewrite !append_assoc, startsWith_append, drop_chars_append.
  change (" " +:+ text +:+ tail) with (String " " (text +:+ tail)).
  rewrite read_digits_blank. now apply read_digits_status.
Qed.

Lemma error_kind_server (a b : string) :
  error_kind (new_Error (("API Error: " +:+ a) +:+ b)) = Some ServerError.
Proof.
  unfold error_kind, new_Error, err_message.
  now rewrite append_assoc, startsWith_append.
Qed.

Lemma error_kind_handled (error : ErrObj) :
  error_kind (new_Error (handled_message error)) = Some (classify error).
Proof.
  unfold handled_message, classify.
  destruct (err_response error) as [response|].
  - apply error_kind_server.
  - destruct (truthy (err_request error)); reflexivity.
Qed.

(** ** Error classification *)

(** For every failure that can be logged, the shared handler
    [handleError] of the client returns exactly one error, whose kind is
    chosen by the stage that failed: [ServerError] if the failure carries
    a response, else [NoResponseError] if it carries a request, else
    [RequestSetupError]; the failure's message has no part in the
    choice. *)
Lemma handleError_kind {W} testConfig (now : W -> string) transport
    (error : ErrObj) (s : St W) :
  loggable error = true ->
  exists raised lines,
    handleError (runtime testConfig now transport) error s
    = (Normal raised, mkSt (world s) (trace s ++ List.map EvConsole lines))
    /\ error_kind raised
       = Some (match err_response error with
               | Some _ => ServerError
               | None => if truthy (err_request error)
                         then NoResponseError else RequestSetupError
               end)
    /\ error_kind raised = Some (classify error)
    /\ forall text, classify (with_message text error) = classify error.
Proof.
  intros Hlog.
  destruct (handleError_quiet _ (runtime_quiet testConfig now transport) error s Hlog)
    as [lines Hrun].
  exists (new_Error (handled_message error)), lines.
  split; [exact Hrun|]. split; [apply error_kind_handled|].
  split; [apply error_kind_handled|]. reflexivity.
Qed.

(** C1. The handler does not return an error for every failure. For a
    failure that carries no response and a request object with a cycle
    (what the HTTP adapter attaches when the server cannot be reached or
    does not answer in time), [handleError] of the client passes that
    object to [logger.error], whose [JSON.stringify] throws a
    [TypeError]; the handler throws it before it reaches
    [return new Error('Network Error: No response received')], nothing
    is printed, and the thrown error is of none of the three kinds,
    although the failure classifies as [NoResponseError]. *)
Theorem handleError_throws_on_cyclic_request {W} testConfig (now : W -> string) transport
    (error : ErrObj) (description : string) (s : St W) :
  err_response error = None ->
  err_request error = Cyclic description ->
  handleError (runtime testConfig now transport) error s
  = (Throw (TypeError_circular description), s)
  /\ classify error = NoResponseError
  /\ error_kind (TypeError_circular description) = None
  /\ err_message (TypeError_circular description) <> "Network Error: No response received".
Proof.
  intros Hresp Hreq. split; [now apply handleError_cyclic|].
  split; [unfold classify; now rewrite Hresp, Hreq|].
  split; [reflexivity|]. discriminate.
Qed.

Lemma handleError_throws_on_cyclic_request_witness :
  handleError (runtime sample_config sample_clock transport_refused) failure_refused
    (initial tt)
  = (Throw (TypeError_circular " --> starting at object with constructor 'ClientRequest'"),
     initial tt)
  /\ classify failure_refused = NoResponseError
  /\ error_kind (TypeError_circular " --> starting at object with constructor 'ClientRequest'")
     = None
  /\ err_message (TypeError_circular " --> starting at object with constructor 'ClientRequest'")
     <> "Network Error: No response received".
Proof.
  apply (handleError_throws_on_cyclic_request sample_config sample_clock transport_refused
           failure_refused " --> starting at object with constructor 'ClientRequest'"
           (initial tt)); reflexivity.
Defined.

(** What a verb method raises when the transport rejects with a failure
    that can be logged, for the client with the repository's logger. *)
Lemma call_verb_rejected {W} testConfig (now : W -> string) transport
    (m : Method) (self : ApiClient) (url : string) (body : JsVal)
    (config : option AxiosRequestConfig) (s : St W) (error : ErrObj) (w' : W) :
  transport (verb_request m self url body config) (world s) = (Throw error, w') ->
  loggable error = true ->
  exists s',
    call_verb (runtime testConfig now transport) m self url body config s
    = (Throw (new_Error (handled_message error)), s')
    /\ world s' = w'.
Proof.
  intros Ht Hlog.
  destruct (call_verb_loggable _ (runtime_quiet testConfig now transport)
              m self url body config s error w' Ht Hlog) as (ext & Hrun & _).
  eexists. split; [exact Hrun | reflexivity].
Qed.

(** A failure with a response, or without a request, can be logged. *)
Lemma loggable_response (error : ErrObj) (response : AxiosResponse) :
  err_response error = Some response -> loggable error = true.
Proof. unfold loggable. now intros ->. Qed.

Lemma loggable_no_request (error : ErrObj) :
  truthy (err_request error) = false -> loggable error = true.
Proof.
  unfold loggable. intros H.
  destruct (err_response error); [reflexivity|].
  destruct (err_request error) as [v|d]; [reflexivity | discriminate].
Qed.

Lemma loggable_plain (error : ErrObj) (v : JsVal) :
  err_request error = Plain v -> loggable error = true.
Proof. unfold loggable. intros ->. now destruct (err_response error). Qed.

Lemma raised_for_loggable (error : ErrObj) :
  loggable error = true -> raised_for error = new_Error (handled_message error).
Proof.
  unfold loggable, raised_for.
  destruct (err_response error); [reflexivity|].
  destruct (err_request error); [reflexivity | discriminate].
Qed.

(** C3, as stated, fails: [get('/users/999')] against a server answering
    404 with an empty object raises a plain [Error]; reading its
    [statusCode] gives [undefined], not 404. The status code is in the
    message text only. *)
Lemma get_404_has_no_statusCode :
  exists raised s',
    get (runtime sample_config sample_clock transport_404)
      (constructor sample_config None) "/users/999" None (initial tt)
    = (Throw raised, s')
    /\ get_property raised "statusCode" = JUndefined
    /\ get_property raised "statusCode" <> JNum 404
    /\ err_message raised = "API Error: 404 Not Found - {}".
Proof.
  eexists _, _. split; [vm_compute; reflexivity|].
  repeat split; [discriminate].
Qed.

(** C3, amended. For every failure that carries a response whose status
    code lies in [400, 599], the error raised by each verb method is of
    the [ServerError] kind: a plain [Error] without a [statusCode]
    property, whose message is
    [API Error: <status> <statusText> - <JSON of the body>]; the status
    code read back from that message equals the response's. *)
Theorem server_error_status_in_message {W} testConfig (now : W -> string) transport
    (m : Method) (self : ApiClient) (url : string) (body : JsVal)
    (config : option AxiosRequestConfig) (s : St W)
    (error : ErrObj) (response : AxiosResponse) (w' : W) :
  transport (verb_request m self url body config) (world s) = (Throw error, w') ->
  err_response error = Some response ->
  (400 <= resp_status response <= 599)%Z ->
  exists raised s',
    call_verb (runtime testConfig now transport) m self url body config s = (Throw raised, s')
    /\ error_kind raised = Some ServerError
    /\ err_message raised
       = ("API Error: " +:+ pretty (resp_status response) +:+ " " +:+ resp_statusText response)
         +:+ " - " +:+ Js.template (Js.JSON_stringify (resp_data response))
    /\ get_property raised "statusCode" = JUndefined
    /\ status_in_message (err_message raised) = Some (resp_status response).
Proof.
  intros Ht Hresp Hrange.
  destruct (call_verb_rejected testConfig now transport m self url body config s error w' Ht
              (loggable_response error response Hresp)) as (s' & Hrun & _).
  exists (new_Error (handled_message error)), s'.
  split; [exact Hrun|]. rewrite error_kind_handled.
  unfold classify, handled_message. rewrite Hresp. cbn [new_Error err_message].
  repeat split. now apply status_in_message_server.
Qed.

Lemma server_error_status_in_message_witness :
  exists raised s',
    call_verb (runtime sample_config sample_clock transport_404) GET
      (constructor sample_config None) "/users/999" JUndefined None (initial tt)
    = (Throw raised, s')
    /\ error_kind raised = Some ServerError
    /\ err_message raised
       = ("API Error: " +:+ pretty 404%Z +:+ " " +:+ "Not Found")
         +:+ " - " +:+ Js.template (Js.JSON_stringify (JObj []))
    /\ get_property raised "statusCode" = JUndefined
    /\ status_in_message (err_message raised) = Some 404%Z.
Proof.
  apply (server_error_status_in_message sample_config sample_clock transport_404
           GET (constructor sample_config None) "/users/999" JUndefined None (initial tt)
           (failure_404 (verb_request GET (constructor sample_config None)
                           "/users/999" JUndefined None))
           (sample_response 404 "Not Found" (JObj [])
              (verb_request GET (constructor sample_config None) "/users/999" JUndefined None))
           tt).
  - reflexivity.
  - reflexivity.
  - simpl. lia.
Defined.

(** C4, as stated, fails: for a failure with neither request nor
    response and the message [Invalid URL], the raised error's message is
    [Request Error: Invalid URL], not the failure's own message. *)
Lemma setup_error_message_is_prefixed :
  exists raised s',
    get (runtime sample_config sample_clock transport_setup_failure)
      (constructor sample_config None) "/users" None (initial tt)
    = (Throw raised, s')
    /\ err_response failure_setup = None
    /\ truthy (err_request failure_setup) = false
    /\ err_message raised = "Request Error: Invalid URL"
    /\ err_message raised <> err_message failure_setup.
Proof.
  eexists _, _. split; [vm_compute; reflexivity|].
  repeat split. discriminate.
Qed.

(** C4, amended. For every failure that carries neither a request nor a
    response, the error raised by each verb method is of the
    [RequestSetupError] kind and its message is the text
    [Request Error: ] followed by the failure's message, unchanged. *)
Theorem setup_error_message {W} testConfig (now : W -> string) transport
    (m : Method) (self : ApiClient) (url : string) (body : JsVal)
    (config : option AxiosRequestConfig) (s : St W) (error : ErrObj) (w' : W) :
  transport (verb_request m self url body config) (world s) = (Throw error, w') ->
  err_response error = None ->
  truthy (err_request error) = false ->
  exists raised s',
    call_verb (runtime testConfig now transport) m self url body config s = (Throw raised, s')
    /\ error_kind raised = Some RequestSetupError
    /\ err_message raised = "Request Error: " +:+ err_message error.
Proof.
  intros Ht Hresp Hreq.
  destruct (call_verb_rejected testConfig now transport m self url body config s error w' Ht
              (loggable_no_request error Hreq)) as (s' & Hrun & _).
  exists (new_Error (handled_message error)), s'.
  split; [exact Hrun|]. rewrite error_kind_handled.
  unfold classify, handled_message. now rewrite Hresp, Hreq.
Qed.

Lemma setup_error_message_witness :
  exists raised s',
    call_verb (runtime sample_config sample_clock transport_setup_failure) POST
      (constructor sample_config None) "/users" (JObj [("name", JStr "a")]) None (initial tt)
    = (Throw raised, s')
    /\ error_kind raised = Some RequestSetupError
    /\ err_message raised = "Request Error: " +:+ "Invalid URL".
Proof.
  apply (setup_error_message sample_config sample_clock transport_setup_failure
           POST (constructor sample_config None) "/users" (JObj [("name", JStr "a")]) None
           (initial tt) failure_setup tt); reflexivity.
Defined.

(** ** Response envelope *)

(** C2. For every transport response [response] that answers the request
    of a verb method, each of the five methods returns an envelope (an
    [ApiResponse], built anew by [formatResponse], not the
    [AxiosResponse]) whose [data], [status], [statusText] and [headers]
    equal those of the response; the envelope is the same for any
    response with these four fields, whatever its [config] and
    [request]. *)
Theorem verbs_return_envelope {W} testConfig (now : W -> string) transport
    (m : Method) (self : ApiClient) (url : string) (body : JsVal)
    (config : option AxiosRequestConfig) (s : St W) (response : AxiosResponse) (w' : W) :
  transport (verb_request m self url body config) (world s) = (Normal response, w') ->
  exists envelope s',
    call_verb (runtime testConfig now transport) m self url body config s
    = (Normal envelope, s')
    /\ world s' = w'
    /\ data envelope = resp_data response
    /\ status envelope = resp_status response
    /\ statusText envelope = resp_statusText response
    /\ headers envelope = resp_headers response
    /\ forall config' request',
         envelope = formatResponse
                      (mkAxiosResponse (resp_data response) (resp_status response)
                         (resp_statusText response) (resp_headers response) config' request').
Proof.
  intros Ht.
  destruct (call_verb_resolved _ (runtime_quiet testConfig now transport)
              m self url body config s response w' Ht) as (ext & Hrun & _).
  eexists _, _. split; [exact Hrun|]. repeat split.
Qed.

Lemma verbs_return_envelope_witness :
  exists envelope s',
    call_verb (runtime sample_config sample_clock transport_ok) GET
      (constructor sample_config (Some "https://reqres.in/api"))
      "/users?page=2&per_page=3" JUndefined None (initial tt)
    = (Normal envelope, s')
    /\ world s' = tt
    /\ data envelope = JObj [("page", JNum 2); ("per_page", JNum 3)]
    /\ status envelope = 200%Z
    /\ statusText envelope = "OK"
    /\ headers envelope = JObj [("content-type", JStr "application/json")]
    /\ forall config' request',
         envelope = formatResponse
                      (mkAxiosResponse (JObj [("page", JNum 2); ("per_page", JNum 3)]) 200%Z
                         "OK" (JObj [("content-type", JStr "application/json")])
                         config' request').
Proof.
  apply (verbs_return_envelope sample_config sample_clock transport_ok GET
           (constructor sample_config (Some "https://reqres.in/api"))
           "/users?page=2&per_page=3" JUndefined None (initial tt)
           (sample_response 200 "OK" (JObj [("page", JNum 2); ("per_page", JNum 3)])
              (verb_request GET (constructor sample_config (Some "https://reqres.in/api"))
                 "/users?page=2&per_page=3" JUndefined None))
           tt).
  reflexivity.
Defined.

(** ** The retry wrapper *)

(** [lastError.message] can be read unless the caught value is
    [undefined] or [null]. *)
Lemma thrown_message_readable (error : Thrown) :
  nullish error = false -> exists message, thrown_message error = Normal message.
Proof.
  destruct error as [v|e]; [|now eexists].
  destruct v; cbn; (discriminate || (intros _; eexists; reflexivity)).
Qed.

Lemma thrown_message_nullish (error : Thrown) :
  nullish error = true ->
  exists v, error = ThrownValue v /\ thrown_message error = Throw (TypeError_read v "message").
Proof.
  destruct error as [v|e]; [|discriminate].
  destruct v; cbn; (discriminate || (intros _; eexists; split; reflexivity)).
Qed.

Lemma invocations_app (tr1 tr2 : list Event) :
  invocations (tr1 ++ tr2) = (invocations tr1 + invocations tr2)%nat.
Proof. unfold invocations. now rewrite List.filter_app, length_app. Qed.

Lemma delays_app (tr1 tr2 : list Event) : delays (tr1 ++ tr2) = (delays tr1 ++ delays tr2)%list.
Proof. unfold delays. apply flat_map_app. Qed.

Lemma timeline_app (tr1 tr2 : list Event) :
  timeline (tr1 ++ tr2) = (timeline tr1 ++ timeline tr2)%list.
Proof. unfold timeline. apply List.filter_app. Qed.

Section RetryProperties.
Context {W T : Type}.
Variable testConfig : TestConfig.
Variable now : W -> string.
Variable transport : InternalRequestConfig -> W -> Completion ErrObj AxiosResponse * W.
Variable operation : W -> Completion Thrown T * W.

Let rt := runtime testConfig now transport.

Lemma warn_logged (message : string) (s : St W) :
  do_log (cap_warn (rt_logger rt)) message JUndefined s
  = (Normal tt,
     mkSt (world s) (trace s ++ [EvConsole (log_line now "WARN" message (world s))])).
Proof.
  unfold do_log, rt, runtime, logger. cbn [rt_logger Logger.cap cap_warn].
  unfold Logger.warn, Logger.log.
  destruct (String.eqb (testEnv testConfig) "development"); reflexivity.
Qed.

(** One turn of the loop whose call of the operation resolves. *)
Lemma retry_loop_resolved (N d : Z) (fuel : nat) (attempt : Z) (last : option Thrown)
    (s : St W) (v : T) (w1 : W) :
  (attempt <= N)%Z ->
  operation (world s) = (Normal v, w1) ->
  retry_loop rt operation N d (S fuel) attempt last s
  = Some (Normal v, mkSt w1 (trace s ++ [EvInvoke])).
Proof.
  intros Hle Hop. cbn [retry_loop].
  destruct (Z.leb_spec attempt N); [|lia].
  unfold call_operation. now rewrite Hop.
Qed.

(** One turn of the loop whose call of the operation rejects with a
    value whose [message] can be read: the failure is logged; on the
    last attempt it is thrown as it is, and otherwise the loop goes on
    after the wait. *)
Lemma retry_loop_rejected (N d : Z) (fuel : nat) (attempt : Z) (last : option Thrown)
    (s : St W) (error : Thrown) (message : string) (w1 : W) :
  (attempt <= N)%Z ->
  operation (world s) = (Throw error, w1) ->
  thrown_message error = Normal message ->
  retry_loop rt operation N d (S fuel) attempt last s
  = if (attempt =? N)%Z
    then Some (Throw (Some error),
               mkSt w1 (trace s ++ [EvInvoke; EvConsole (warn_line now attempt message w1)]))
    else retry_loop rt operation N d fuel (attempt + 1) (Some error)
           (mkSt w1 (trace s ++ [EvInvoke; EvConsole (warn_line now attempt message w1);
                                 EvDelay (d * attempt)])).
Proof.
  intros Hle Hop Hmsg. cbn [retry_loop].
  destruct (Z.leb_spec attempt N); [|lia].
  unfold call_operation. rewrite Hop, Hmsg, warn_logged. cbn [world trace].
  unfold delay, emit. cbn [world trace].
  rewrite <- !app_assoc. reflexivity.
Qed.

(** One turn of the loop whose call of the operation rejects with
    [undefined] or [null]: reading [lastError.message] throws, and the
    [TypeError] leaves the loop, before any line is logged and without
    a wait, whatever the number of attempts left. *)
Lemma retry_loop_unreadable (N d : Z) (fuel : nat) (attempt : Z) (last : option Thrown)
    (s : St W) (v : JsVal) (w1 : W) :
  (attempt <= N)%Z ->
  operation (world s) = (Throw (ThrownValue v), w1) ->
  nullish (ThrownValue v) = true ->
  retry_loop rt operation N d (S fuel) attempt last s
  = Some (Throw (Some (ThrownObject (TypeError_read v "message"))),
          mkSt w1 (trace s ++ [EvInvoke])).
Proof.
  intros Hle Hop Hnull. cbn [retry_loop].
  destruct (Z.leb_spec attempt N); [|lia].
  unfold call_operation. rewrite Hop.
  destruct (thrown_message_nullish _ Hnull) as (v' & [= <-] & ->). reflexivity.
Qed.

(** The loop once the counter has passed [maxAttempts]. *)
Lemma retry_loop_done (N d : Z) (fuel : nat) (attempt : Z) (last : option Thrown) (s : St W) :
  (N < attempt)%Z ->
  retry_loop rt operation N d fuel attempt last s = Some (Throw last, s).
Proof.
  intros Hlt. destruct fuel; cbn [retry_loop]; destruct (Z.leb_spec attempt N); (lia || reflexivity).
Qed.

(** An operation that rejects on every call, never with [undefined] or
    [null], uses up all attempts. *)
Lemma retry_loop_exhausted (N d : Z) :
  (forall w, exists error, fst (operation w) = Throw error /\ nullish error = false) ->
  forall (k fuel : nat) (attempt : Z) (last : option Thrown) (s : St W),
    (attempt + Z.of_nat k = N)%Z ->
    (k < fuel)%nat ->
    exists error s',
      retry_loop rt operation N d fuel attempt last s = Some (Throw (Some error), s')
      /\ fst (operation (world_after operation k (world s))) = Throw error
      /\ world s' = world_after operation (S k) (world s)
      /\ invocations (trace s') = (invocations (trace s) + S k)%nat
      /\ delays (trace s')
         = (delays (trace s) ++ List.map (fun i => d * i)%Z (seqZ attempt (Z.of_nat k)))%list.
Proof.
  intros Hfail k. induction k as [|k IH]; intros fuel attempt last s Hn Hfuel;
    (destruct fuel as [|fuel]; [lia|]);
    destruct (Hfail (world s)) as (error & Herr & Hread);
    destruct (thrown_message_readable error Hread) as [message Hmsg];
    destruct (operation (world s)) as [r w1] eqn:Hop; cbn [fst] in Herr; subst r;
    rewrite (retry_loop_rejected N d fuel attempt last s error message w1 ltac:(lia) Hop Hmsg).
  - replace attempt with N by lia. rewrite Z.eqb_refl.
    eexists _, _. split; [reflexivity|]. cbn [world trace world_after].
    rewrite Hop. cbn [fst snd]. repeat split.
    + rewrite invocations_app. reflexivity.
    + rewrite delays_app. reflexivity.
  - destruct (Z.eqb_spec attempt N); [lia|].
    edestruct (IH fuel (attempt + 1)%Z (Some error)) as (e' & s' & Hrun & He' & Hw & Hi & Hd);
      [| | rewrite Hrun]; [lia | lia |].
    cbn [world trace] in *.
    exists e', s'. split; [reflexivity|]. cbn [world_after]. rewrite Hop. cbn [snd].
    repeat split; [exact He' | exact Hw | |].
    + rewrite Hi, invocations_app. cbn. lia.
    + rewrite Hd, delays_app. cbn [delays flat_map app].
      rewrite <- app_assoc. f_equal.
      replace (Z.of_nat (S k)) with (Z.succ (Z.of_nat k)) by lia.
      rewrite (seqZ_cons attempt) by lia. cbn [List.map app]. do 3 f_equal; lia.
Qed.

(** Where the outcome of the loop comes from, for any operation: a
    returned value was returned by a call of the operation; a thrown
    value was thrown by a call of the operation, or is the [TypeError]
    of reading [message] of the [undefined] or [null] that a call
    rejected with; unless the loop body never ran and [lastError] is
    thrown as it stood. Enough fuel always gives a result. *)
Lemma retry_loop_provenance (N d : Z) :
  forall (fuel : nat) (attempt : Z) (last : option Thrown) (s : St W),
    (Z.to_nat (N + 1 - attempt) <= fuel)%nat ->
    exists outcome s',
      retry_loop rt operation N d fuel attempt last s = Some (outcome, s')
      /\ match outcome with
         | Normal v =>
             exists k, (attempt + Z.of_nat k <= N)%Z
                       /\ fst (operation (world_after operation k (world s))) = Normal v
         | Throw thrown =>
             (exists k error,
                 (attempt + Z.of_nat k <= N)%Z
                 /\ fst (operation (world_after operation k (world s))) = Throw error
                 /\ ((nullish error = false /\ thrown = Some error)
                     \/ (exists v, error = ThrownValue v /\ nullish error = true
                                   /\ thrown = Some (ThrownObject (TypeError_read v "message")))))
             \/ ((N < attempt)%Z /\ thrown = last)
         end.
Proof.
  induction fuel as [|fuel IH]; intros attempt last s Hfuel.
  - exists (Throw last), s. split; [apply retry_loop_done; lia|]. right. split; [lia|reflexivity].
  - destruct (Z.le_gt_cases attempt N) as [Hle|Hgt].
    2:{ exists (Throw last), s. split; [apply retry_loop_done; lia|]. right. split; [lia|reflexivity]. }
    destruct (operation (world s)) as [[v|error] w1] eqn:Hop.
    + rewrite (retry_loop_resolved N d fuel attempt last s v w1 Hle Hop).
      eexists _, _. split; [reflexivity|]. exists 0%nat. cbn [world_after].
      rewrite Hop. split; [lia|reflexivity].
    + destruct (nullish error) eqn:Hnull.
      { destruct (thrown_message_nullish error Hnull) as (v & -> & _).
        rewrite (retry_loop_unreadable N d fuel attempt last s v w1 Hle Hop Hnull).
        eexists _, _. split; [reflexivity|]. left. exists 0%nat, (ThrownValue v).
        cbn [world_after]. rewrite Hop. split; [lia|]. split; [reflexivity|].
        right. exists v. repeat split. exact Hnull. }
      destruct (thrown_message_readable error Hnull) as [message Hmsg].
      rewrite (retry_loop_rejected N d fuel attempt last s error message w1 Hle Hop Hmsg).
      destruct (Z.eqb_spec attempt N) as [->|Hne].
      * eexists _, _. split; [reflexivity|]. left. exists 0%nat, error. cbn [world_after].
        rewrite Hop. split; [lia|]. split; [reflexivity|]. left. now split.
      * edestruct (IH (attempt + 1)%Z (Some error)) as (outcome & s' & Hrun & Hout);
          [| rewrite Hrun]; [lia|].
        cbn [world] in Hout. exists outcome, s'. split; [reflexivity|].
        destruct outcome as [v|thrown].
        -- destruct Hout as (k & Hk & Hv). exists (S k). cbn [world_after].
           rewrite Hop. cbn [snd]. split; [lia|exact Hv].
        -- destruct Hout as [(k & e' & Hk & He' & Hth)|[Hlt _]]; [|lia].
           left. exists (S k), e'. cbn [world_after]. rewrite Hop. cbn [snd].
           split; [lia|]. split; [exact He'|exact Hth].
Qed.

End RetryProperties.

(** C5, as stated, fails: an operation that rejects with [undefined] on
    every call is called once, not three times, by
    [withRetry(operation, 3)]: reading [lastError.message] in the
    [catch] block throws a [TypeError], and that [TypeError], which no
    call of the operation rejected with, is what the wrapper throws;
    there is no wait and no second attempt. *)
Lemma withRetry_undefined_rejection_not_retried :
  exists thrown s',
    withRetry (runtime sample_config sample_clock transport_ok) rejecting_undefined
      sample_config (Some 3%Z) (Some 1000%Z) (initial 0%nat)
    = Some (Throw (Some thrown), s')
    /\ (forall w, fst (rejecting_undefined w) = Throw (ThrownValue JUndefined))
    /\ invocations (trace s') = 1%nat
    /\ invocations (trace s') <> 3%nat
    /\ delays (trace s') = []
    /\ thrown = ThrownObject (TypeError_read JUndefined "message")
    /\ thrown <> ThrownValue JUndefined.
Proof.
  eexists _, _. split; [vm_compute; reflexivity|].
  repeat split; discriminate.
Qed.

(** C5, amended. For every operation that rejects on every call, never
    with [undefined] or [null], and every [maxAttempts = N >= 1],
    [withRetry] calls the operation exactly [N] times and then throws
    the very value the [N]-th call rejected with, not a new one. (The
    waits in between are [delay * 1], ..., [delay * (N - 1)]: none after
    the last attempt.) *)
Theorem withRetry_exhausts_attempts {W T} testConfig (now : W -> string) transport
    (operation : W -> Completion Thrown T * W) (N : Z) (delayMs : option Z) (s : St W) :
  (1 <= N)%Z ->
  (forall w, exists error, fst (operation w) = Throw error /\ nullish error = false) ->
  exists error s',
    withRetry (runtime testConfig now transport) operation testConfig (Some N) delayMs s
    = Some (Throw (Some error), s')
    /\ fst (operation (world_after operation (Z.to_nat N - 1) (world s))) = Throw error
    /\ world s' = world_after operation (Z.to_nat N) (world s)
    /\ invocations (trace s') = (invocations (trace s) + Z.to_nat N)%nat
    /\ delays (trace s')
       = (delays (trace s)
          ++ List.map (fun k => default 1000 delayMs * k)%Z (seqZ 1 (N - 1)))%list.
Proof.
  intros HN Hfail. unfold withRetry. cbn [default from_option id].
  destruct (retry_loop_exhausted testConfig now transport operation N
              (default 1000%Z delayMs) Hfail (Z.to_nat N - 1) (Z.to_nat N) 1 None s)
    as (error & s' & Hrun & Herr & Hw & Hi & Hd); [lia | lia |].
  exists error, s'. split; [exact Hrun|]. split; [exact Herr|].
  replace (S (Z.to_nat N - 1)) with (Z.to_nat N) in * by lia.
  replace (Z.of_nat (Z.to_nat N - 1)) with (N - 1)%Z in Hd by lia.
  repeat split; assumption.
Qed.

Lemma withRetry_exhausts_attempts_witness :
  exists error s',
    withRetry (runtime sample_config sample_clock transport_ok) always_failing sample_config
      (Some 3%Z) (Some 1000%Z) (initial 0%nat)
    = Some (Throw (Some error), s')
    /\ fst (always_failing (world_after always_failing (Z.to_nat 3 - 1) 0%nat)) = Throw error
    /\ world s' = world_after always_failing (Z.to_nat 3) 0%nat
    /\ invocations (trace s') = (invocations [] + Z.to_nat 3)%nat
    /\ delays (trace s')
       = (delays [] ++ List.map (fun k => 1000 * k)%Z (seqZ 1 (3 - 1)))%list.
Proof.
  apply (withRetry_exhausts_attempts sample_config sample_clock transport_ok always_failing
           3%Z (Some 1000%Z) (initial 0%nat)).
  - lia.
  - intros w. eexists. split; reflexivity.
Defined.

(** C6, as stated, fails: an operation that rejects with [null] on its
    first two calls and resolves on its third is called once by
    [withRetry(operation, 3, 1000)], which then throws the [TypeError]
    of reading [lastError.message]: the value of the third call is not
    returned, and there is no wait. *)
Lemma withRetry_null_rejection_ends_retry :
  exists thrown s',
    withRetry (runtime sample_config sample_clock transport_ok) (flaky_null 2)
      sample_config (Some 3%Z) (Some 1000%Z) (initial 0%nat)
    = Some (Throw (Some thrown), s')
    /\ fst (flaky_null 2 0%nat) = Throw (ThrownValue JNull)
    /\ fst (flaky_null 2 1%nat) = Throw (ThrownValue JNull)
    /\ fst (flaky_null 2 2%nat) = Normal 2%nat
    /\ thrown = ThrownObject (TypeError_read JNull "message")
    /\ invocations (trace s') = 1%nat
    /\ delays (trace s') = [].
Proof.
  eexists _, _. split; [vm_compute; reflexivity|].
  repeat split.
Qed.

(** C6, amended. For an operation that rejects on its first two calls,
    neither time with [undefined] or [null], and resolves on its third,
    [withRetry(operation, 3, delay)] returns the value of the third call
    and calls the operation exactly three times, waiting [delay * 1]
    after the first attempt and [delay * 2] after the second (1000 and
    2000 milliseconds for [delay = 1000]) and not after the third. *)
Theorem withRetry_two_failures_then_success {W T} testConfig (now : W -> string) transport
    (operation : W -> Completion Thrown T * W) (d : Z) (s : St W)
    (e1 e2 : Thrown) (v : T) (w1 w2 w3 : W) :
  operation (world s) = (Throw e1, w1) ->
  operation w1 = (Throw e2, w2) ->
  operation w2 = (Normal v, w3) ->
  nullish e1 = false ->
  nullish e2 = false ->
  exists s',
    withRetry (runtime testConfig now transport) operation testConfig (Some 3%Z) (Some d) s
    = Some (Normal v, s')
    /\ world s' = w3
    /\ invocations (trace s') = (invocations (trace s) + 3)%nat
    /\ delays (trace s') = (delays (trace s) ++ [d * 1; d * 2])%Z%list
    /\ timeline (trace s')
       = (timeline (trace s)
          ++ [EvInvoke; EvDelay (d * 1); EvInvoke; EvDelay (d * 2); EvInvoke])%list.
Proof.
  intros H1 H2 H3 Hn1 Hn2. unfold withRetry. cbn [default from_option id].
  change (Z.to_nat 3) with 3%nat.
  destruct (thrown_message_readable e1 Hn1) as [m1 Hm1].
  destruct (thrown_message_readable e2 Hn2) as [m2 Hm2].
  rewrite (retry_loop_rejected testConfig now transport operation 3 d 2 1 None s e1 m1 w1
             ltac:(lia) H1 Hm1).
  cbn [Z.eqb Pos.eqb].
  erewrite retry_loop_rejected; [| lia | cbn [world]; exact H2 | exact Hm2].
  cbn [Z.eqb Pos.eqb Z.add Pos.add trace].
  erewrite retry_loop_resolved; [| lia | cbn [world]; exact H3].
  eexists. split; [reflexivity|]. cbn [world trace].
  rewrite !invocations_app, !delays_app, !timeline_app.
  repeat split; cbn; [lia | |]; now rewrite <- !app_assoc.
Qed.

Lemma withRetry_two_failures_then_success_witness :
  exists s',
    withRetry (runtime sample_config sample_clock transport_ok) (flaky 2) sample_config
      (Some 3%Z) (Some 1000%Z) (initial 0%nat)
    = Some (Normal 2%nat, s')
    /\ world s' = 3%nat
    /\ invocations (trace s') = (invocations [] + 3)%nat
    /\ delays (trace s') = (delays [] ++ [1000 * 1; 1000 * 2])%Z%list
    /\ timeline (trace s')
       = (timeline []
          ++ [EvInvoke; EvDelay (1000 * 1); EvInvoke; EvDelay (1000 * 2); EvInvoke])%list.
Proof.
  apply (withRetry_two_failures_then_success sample_config sample_clock transport_ok
           (flaky 2) 1000%Z (initial 0%nat)
           (ThrownObject (new_Error ("failure " +:+ pretty 0%nat)))
           (ThrownObject (new_Error ("failure " +:+ pretty 1%nat)))
           2%nat 1%nat 2%nat 3%nat); reflexivity.
Defined.

(** With [maxAttempts <= 0] the loop body never runs and the unassigned
    [lastError] is thrown: the thrown value is [undefined]. *)
Lemma withRetry_no_attempts {W T} (rt : Runtime W) (operation : W -> Completion Thrown T * W)
    testConfig (N : Z) (delayMs : option Z) (s : St W) :
  (N <= 0)%Z ->
  withRetry rt operation testConfig (Some N) delayMs s = Some (Throw None, s).
Proof.
  intros HN. unfold withRetry. cbn [default from_option id].
  replace (Z.to_nat N) with 0%nat by lia. cbn [retry_loop].
  destruct (Z.leb_spec 1 N); [lia | reflexivity].
Qed.

(** C7, as stated, fails: when the operation rejects with [undefined],
    [withRetry(operation, 2)] throws a [TypeError] made by the wrapper
    itself (reading [lastError.message] of the [undefined] just
    assigned), which no call of the operation threw. *)
Lemma withRetry_throws_its_own_TypeError :
  exists thrown s',
    withRetry (runtime sample_config sample_clock transport_ok) rejecting_undefined
      sample_config (Some 2%Z) None (initial 0%nat)
    = Some (Throw (Some thrown), s')
    /\ thrown = ThrownObject (TypeError_read JUndefined "message")
    /\ forall k, fst (rejecting_undefined (world_after rejecting_undefined k 0%nat))
                 <> Throw thrown.
Proof.
  eexists _, _. split; [vm_compute; reflexivity|].
  split; [reflexivity|]. intros k. discriminate.
Qed.

(** C7, amended. Under [maxAttempts = N >= 1], [withRetry] always
    completes, and either returns a value that one of the first [N]
    calls of the operation resolved with, or throws a value, not
    [undefined] or [null], that one of these calls rejected with, or,
    one of these calls having rejected with [undefined] or [null],
    throws the [TypeError] of reading [message] of that value; it never
    throws the unassigned [lastError] ([undefined]). *)
Theorem withRetry_outcome_from_operation {W T} testConfig (now : W -> string) transport
    (operation : W -> Completion Thrown T * W) (N : Z) (delayMs : option Z) (s : St W) :
  (1 <= N)%Z ->
  exists outcome s',
    withRetry (runtime testConfig now transport) operation testConfig (Some N) delayMs s
    = Some (outcome, s')
    /\ match outcome with
       | Normal v =>
           exists k, (Z.of_nat k < N)%Z
                     /\ fst (operation (world_after operation k (world s))) = Normal v
       | Throw (Some thrown) =>
           exists k error,
             (Z.of_nat k < N)%Z
             /\ fst (operation (world_after operation k (world s))) = Throw error
             /\ ((nullish error = false /\ thrown = error)
                 \/ (exists v, error = ThrownValue v /\ nullish error = true
                               /\ thrown = ThrownObject (TypeError_read v "message")))
       | Throw None => False
       end.
Proof.
  intros HN. unfold withRetry. cbn [default from_option id].
  destruct (retry_loop_provenance testConfig now transport operation N
              (default 1000%Z delayMs) (Z.to_nat N) 1 None s)
    as (outcome & s' & Hrun & Hout); [lia|].
  exists outcome, s'. split; [exact Hrun|].
  destruct outcome as [v|thrown].
  - destruct Hout as (k & Hk & Hv). exists k. split; [lia|exact Hv].
  - destruct Hout as [(k & error & Hk & He & Hth)|[Hlt _]]; [|lia].
    destruct Hth as [[Hn ->]|(v & -> & Hn & ->)].
    + exists k, error. split; [lia|]. split; [exact He|]. left. now split.
    + exists k, (ThrownValue v). split; [lia|]. split; [exact He|]. right.
      exists v. now repeat split.
Qed.

Lemma withRetry_outcome_from_operation_witness :
  exists outcome s',
    withRetry (runtime sample_config sample_clock transport_ok) (flaky_null 1) sample_config
      (Some 2%Z) None (initial 0%nat)
    = Some (outcome, s')
    /\ match outcome with
       | Normal v =>
           exists k, (Z.of_nat k < 2)%Z
                     /\ fst (flaky_null 1 (world_after (flaky_null 1) k 0%nat)) = Normal v
       | Throw (Some thrown) =>
           exists k error,
             (Z.of_nat k < 2)%Z
             /\ fst (flaky_null 1 (world_after (flaky_null 1) k 0%nat)) = Throw error
             /\ ((nullish error = false /\ thrown = error)
                 \/ (exists v, error = ThrownValue v /\ nullish error = true
                               /\ thrown = ThrownObject (TypeError_read v "message")))
       | Throw None => False
       end.
Proof.
  apply (withRetry_outcome_from_operation sample_config sample_clock transport_ok
           (flaky_null 1) 2%Z None (initial 0%nat)).
  lia.
Defined.

(** ** Authorization header *)

(** The setters never touch the headers given at construction. *)
Lemma own_headers_after (testConfig : TestConfig) (b : option string) (calls : list SetterCall) :
  own (def_headers (defaults (client (client_after testConfig b calls))))
  = {[ "Content-Type" := "application/json"; "Accept" := "application/json" ]}.
Proof.
  unfold client_after.
  assert (H : forall self,
    own (def_headers (defaults (client (foldl apply_setter self calls))))
    = own (def_headers (defaults (client self)))).
  { induction calls as [|c calls IH]; intros self; [reflexivity|].
    cbn [foldl]. rewrite IH. now destruct c. }
  now rewrite H.
Qed.

(** Header names are looked up without regard to letter case. *)
Lemma headers_lookup_case (h : Headers) (name : string) :
  h !! name = header_map h !! Js.toLowerCase name.
Proof. reflexivity. Qed.

Lemma headers_lookup_union (h1 h2 : Headers) (name : string) :
  (h1 ∪ h2) !! name = union_with (fun x _ => Some x) (h1 !! name) (h2 !! name).
Proof. rewrite !headers_lookup_case. apply lookup_union. Qed.

Lemma headers_lookup_insert_eq (h : Headers) (name : string) (value : string) :
  (<[name := value]> h) !! name = Some value.
Proof. rewrite headers_lookup_case. apply lookup_insert_eq. Qed.

Lemma headers_lookup_delete_eq (h : Headers) (name : string) :
  (base.delete name h) !! name = None.
Proof. rewrite headers_lookup_case. apply lookup_delete_eq. Qed.

Lemma headers_lookup_union_r (h1 h2 : Headers) (name : string) :
  h1 !! name = None -> (h1 ∪ h2) !! name = h2 !! name.
Proof. intros H. rewrite headers_lookup_union, H. now destruct (h2 !! name). Qed.

Lemma headers_lookup_union_l (h1 h2 : Headers) (name : string) (value : string) :
  h1 !! name = Some value -> (h1 ∪ h2) !! name = Some value.
Proof. intros H. rewrite headers_lookup_union, H. now destruct (h2 !! name). Qed.

Lemma headers_insert_insert (h : Headers) (name v1 v2 : string) :
  <[name := v2]> (<[name := v1]> h) = <[name := v2]> h.
Proof.
  destruct h as [m].
  change (mkHeaders (<[Js.toLowerCase name := v2]> (<[Js.toLowerCase name := v1]> m))
          = mkHeaders (<[Js.toLowerCase name := v2]> m)).
  f_equal. apply insert_insert_eq.
Qed.

Lemma headers_delete_insert (h : Headers) (name v : string) :
  base.delete name (<[name := v]> h) = base.delete name h.
Proof.
  destruct h as [m].
  change (mkHeaders (base.delete (Js.toLowerCase name) (<[Js.toLowerCase name := v]> m))
          = mkHeaders (base.delete (Js.toLowerCase name) m)).
  f_equal. apply delete_insert_eq.
Qed.

Lemma headers_delete_delete (h : Headers) (name : string) :
  base.delete name (base.delete name h) = base.delete name h.
Proof.
  destruct h as [m].
  change (mkHeaders (base.delete (Js.toLowerCase name) (base.delete (Js.toLowerCase name) m))
          = mkHeaders (base.delete (Js.toLowerCase name) m)).
  f_equal. apply delete_delete_eq.
Qed.

Lemma headers_insert_delete (h : Headers) (name v : string) :
  <[name := v]> (base.delete name h) = <[name := v]> h.
Proof.
  destruct h as [m].
  change (mkHeaders (<[Js.toLowerCase name := v]> (base.delete (Js.toLowerCase name) m))
          = mkHeaders (<[Js.toLowerCase name := v]> m)).
  f_equal. apply insert_delete_eq.
Qed.

Lemma request_authorization (m : Method) (self : ApiClient) (url : string) (body : JsVal)
    (config : option AxiosRequestConfig) :
  cfg_headers (default empty_call_config config) !! "Authorization" = None ->
  own (def_headers (defaults (client self))) !! "Authorization" = None ->
  req_headers (verb_request m self url body config) !! "Authorization"
  = common (def_headers (defaults (client self))) !! "Authorization".
Proof.
  intros Hc Ho. unfold verb_request, mergeConfig. cbn [req_headers].
  rewrite headers_lookup_union_r; [reflexivity|].
  now rewrite headers_lookup_union_r.
Qed.

(** C8, as stated, fails: a request whose per-call options set their own
    [Authorization] header, under any letter case of the name, carries
    that header, both after [setAuthToken] (instead of the bearer token)
    and after [removeAuthToken] (instead of none). *)
Lemma per_call_authorization_wins :
  (exists request,
     issued (get (runtime sample_config sample_clock transport_ok)
               (setAuthToken "QpwL5tke4Pnpja7X4" (constructor sample_config None))
               "/users" (Some basic_auth_config)) (initial tt)
     = [request]
     /\ req_headers request !! "Authorization" = Some "Basic dXNlcjpwYXNz"
     /\ req_headers request !! "Authorization" <> Some ("Bearer " +:+ "QpwL5tke4Pnpja7X4"))
  /\ (exists request,
        issued (get (runtime sample_config sample_clock transport_ok)
                  (removeAuthToken (constructor sample_config None))
                  "/users" (Some basic_auth_config)) (initial tt)
        = [request]
        /\ req_headers request !! "Authorization" = Some "Basic dXNlcjpwYXNz"
        /\ req_headers request !! "Authorization" <> None)
  /\ (exists request,
        issued (get (runtime sample_config sample_clock transport_ok)
                  (setAuthToken "QpwL5tke4Pnpja7X4" (constructor sample_config None))
                  "/users" (Some lowercase_auth_config)) (initial tt)
        = [request]
        /\ req_headers request !! "Authorization" = Some "Basic dXNlcjpwYXNz"
        /\ req_headers request !! "Authorization"
           <> Some ("Bearer " +:+ "QpwL5tke4Pnpja7X4")).
Proof.
  split; [|split]; eexists; (split; [vm_compute; reflexivity|]); split;
    try (vm_compute; reflexivity); vm_compute; discriminate.
Qed.

(** C8, amended. On a client made by the constructor and any earlier
    setter calls, after [setAuthToken(token)] every request issued by a
    verb method whose per-call options do not set an [Authorization]
    header (under any letter case of the name: header names are
    compared without regard to case) carries
    [Authorization: Bearer <token>], and after [removeAuthToken()] every
    such request carries no [Authorization] header. Each verb call
    issues exactly one request. *)
Theorem auth_token_on_requests {W} testConfig (now : W -> string) transport
    (b : option string) (calls : list SetterCall) (token : string)
    (m : Method) (url : string) (body : JsVal) (config : option AxiosRequestConfig)
    (s : St W) :
  cfg_headers (default empty_call_config config) !! "Authorization" = None ->
  (exists request,
     issued (call_verb (runtime testConfig now transport) m
               (setAuthToken token (client_after testConfig b calls)) url body config) s
     = [request]
     /\ req_headers request !! "Authorization" = Some ("Bearer " +:+ token)
     /\ req_headers request !! "authorization" = Some ("Bearer " +:+ token))
  /\ (exists request,
        issued (call_verb (runtime testConfig now transport) m
                  (removeAuthToken (client_after testConfig b calls)) url body config) s
        = [request]
        /\ req_headers request !! "Authorization" = None
        /\ req_headers request !! "authorization" = None).
Proof.
  intros Hc.
  assert (Ho : own (def_headers (defaults (client (client_after testConfig b calls))))
               !! "Authorization" = None).
  { rewrite own_headers_after. reflexivity. }
  split; eexists; (split; [apply issued_client|]);
    change (req_headers ?r !! "authorization") with (req_headers r !! "Authorization");
    (rewrite request_authorization; [| exact Hc | exact Ho]).
  - cbn. split; apply headers_lookup_insert_eq.
  - cbn. split; apply headers_lookup_delete_eq.
Qed.

Lemma auth_token_on_requests_witness :
  (exists request,
     issued (call_verb (runtime sample_config sample_clock transport_ok) GET
               (setAuthToken "QpwL5tke4Pnpja7X4"
                  (client_after sample_config None [SetBaseURL "https://reqres.in/api"]))
               "/users" JUndefined None) (initial tt)
     = [request]
     /\ req_headers request !! "Authorization" = Some ("Bearer " +:+ "QpwL5tke4Pnpja7X4")
     /\ req_headers request !! "authorization" = Some ("Bearer " +:+ "QpwL5tke4Pnpja7X4"))
  /\ (exists request,
        issued (call_verb (runtime sample_config sample_clock transport_ok) GET
                  (removeAuthToken
                     (client_after sample_config None [SetBaseURL "https://reqres.in/api"]))
                  "/users" JUndefined None) (initial tt)
        = [request]
        /\ req_headers request !! "Authorization" = None
        /\ req_headers request !! "authorization" = None).
Proof.
  apply (auth_token_on_requests sample_config sample_clock transport_ok None
           [SetBaseURL "https://reqres.in/api"] "QpwL5tke4Pnpja7X4" GET "/users" JUndefined
           None (initial tt)).
  reflexivity.
Defined.

(** ** Logging and the outcome of a request *)

Lemma noop_logger_never_throws {W} : never_throws (@noop_logger W).
Proof. intros message data w. repeat split; eexists; reflexivity. Qed.

(** C9, as stated, fails: the client does not guard its logging calls.
    With a logger that does nothing a [get] returns the envelope of the
    200 answer, and a [get] answered by 404 raises the [API Error]; with
    a logger whose calls throw, the same two calls both raise the
    logger's own failure instead. *)
Lemma throwing_logger_replaces_outcome :
  (exists envelope,
     fst (get (with_logger noop_logger (runtime sample_config sample_clock transport_ok))
            (constructor sample_config None) "/users" None (initial tt))
     = Normal envelope
     /\ fst (get (with_logger throwing_logger (runtime sample_config sample_clock transport_ok))
               (constructor sample_config None) "/users" None (initial tt))
        = Throw logger_failure)
  /\ fst (get (with_logger noop_logger (runtime sample_config sample_clock transport_404))
            (constructor sample_config None) "/users/999" None (initial tt))
     = Throw (new_Error "API Error: 404 Not Found - {}")
  /\ fst (get (with_logger throwing_logger (runtime sample_config sample_clock transport_404))
            (constructor sample_config None) "/users/999" None (initial tt))
     = Throw logger_failure
  /\ fst (get (with_logger noop_logger (runtime sample_config sample_clock transport_404))
            (constructor sample_config None) "/users/999" None (initial tt))
     <> fst (get (with_logger throwing_logger (runtime sample_config sample_clock transport_404))
               (constructor sample_config None) "/users/999" None (initial tt)).
Proof.
  split; [eexists; split; vm_compute; reflexivity|].
  split; [vm_compute; reflexivity|]. split; [vm_compute; reflexivity|].
  vm_compute. discriminate.
Qed.

(** C9, amended. For every request, the outcome (the returned envelope
    or the raised error, and the state the transport leaves behind) is
    the same under any two logging capabilities none of whose calls
    throws: what a logger prints never changes the result. (A logging
    call that throws is not caught by the client.) *)
Theorem outcome_independent_of_quiet_logger {W} (rt : Runtime W) (l1 l2 : LoggerCap W)
    (m : Method) (self : ApiClient) (url : string) (body : JsVal)
    (config : option AxiosRequestConfig) (s1 s2 : St W) :
  never_throws l1 ->
  never_throws l2 ->
  world s1 = world s2 ->
  fst (call_verb (with_logger l1 rt) m self url body config s1)
  = fst (call_verb (with_logger l2 rt) m self url body config s2)
  /\ world (snd (call_verb (with_logger l1 rt) m self url body config s1))
     = world (snd (call_verb (with_logger l2 rt) m self url body config s2))
  /\ issued (call_verb (with_logger l1 rt) m self url body config) s1
     = issued (call_verb (with_logger l2 rt) m self url body config) s2.
Proof.
  intros H1 H2 Hw.
  rewrite !issued_quiet by assumption. split; [|split; [|reflexivity]].
  all: destruct (call_verb_quiet (with_logger l1 rt) m self url body config s1 H1)
         as (ext1 & -> & _);
       destruct (call_verb_quiet (with_logger l2 rt) m self url body config s2 H2)
         as (ext2 & -> & _);
       cbn [fst snd world rt_transport with_logger]; now rewrite Hw.
Qed.

Lemma outcome_independent_of_quiet_logger_witness :
  fst (call_verb (with_logger noop_logger (runtime sample_config sample_clock transport_404))
         GET (constructor sample_config None) "/users/999" JUndefined None (initial tt))
  = fst (call_verb
           (with_logger echo_logger (runtime sample_config sample_clock transport_404))
           GET (constructor sample_config None) "/users/999" JUndefined None (initial tt))
  /\ world (snd (call_verb
                   (with_logger noop_logger (runtime sample_config sample_clock transport_404))
                   GET (constructor sample_config None) "/users/999" JUndefined None
                   (initial tt)))
     = world (snd (call_verb
                     (with_logger echo_logger
                        (runtime sample_config sample_clock transport_404))
                     GET (constructor sample_config None) "/users/999" JUndefined None
                     (initial tt)))
  /\ issued (call_verb
               (with_logger noop_logger (runtime sample_config sample_clock transport_404))
               GET (constructor sample_config None) "/users/999" JUndefined None) (initial tt)
     = issued (call_verb
                 (with_logger echo_logger (runtime sample_config sample_clock transport_404))
                 GET (constructor sample_config None) "/users/999" JUndefined None) (initial tt).
Proof.
  apply (outcome_independent_of_quiet_logger
           (runtime sample_config sample_clock transport_404)
           noop_logger echo_logger
           GET (constructor sample_config None) "/users/999" JUndefined None
           (initial tt) (initial tt)).
  - intros message data w. repeat split; eexists; reflexivity.
  - intros message data w. repeat split; eexists; reflexivity.
  - reflexivity.
Defined.

(** ** Base address *)

(** C10. A client constructed with base address [b] reports [b] from
    [getBaseURL()]; after [setBaseURL(u)], for every string [u],
    [getBaseURL()] reports [u]; and after any history of setter calls it
    reports the most recently written base address, which is also the
    one the axios instance uses. *)
Theorem baseURL_round_trip (testConfig : TestConfig) (b : string) :
  getBaseURL (constructor testConfig (Some b)) = b
  /\ (forall self u, getBaseURL (setBaseURL u self) = u)
  /\ (forall calls,
        getBaseURL (client_after testConfig (Some b) calls) = last_base_url b calls
        /\ def_baseURL (defaults (client (client_after testConfig (Some b) calls)))
           = last_base_url b calls)
  /\ (forall calls u,
        getBaseURL (client_after testConfig (Some b) (calls ++ [SetBaseURL u])) = u).
Proof.
  assert (Hhist : forall calls self,
    getBaseURL self = def_baseURL (defaults (client self)) ->
    getBaseURL (foldl apply_setter self calls) = last_base_url (getBaseURL self) calls
    /\ def_baseURL (defaults (client (foldl apply_setter self calls)))
       = last_base_url (getBaseURL self) calls).
  { induction calls as [|c calls IH]; intros self Hsync; [now split|].
    cbn [foldl last_base_url].
    destruct (IH (apply_setter self c)) as [Hg Hd]; [now destruct c|].
    unfold last_base_url in *. rewrite Hg, Hd. now destruct c. }
  split; [reflexivity|]. split; [reflexivity|]. split.
  - intros calls. apply (Hhist calls (constructor testConfig (Some b))). reflexivity.
  - intros calls u. unfold client_after. rewrite foldl_app. reflexivity.
Qed.

(** ** The scenarios of the test suites *)

(** [get('/users?page=2&per_page=3')] against a server answering 200
    yields an envelope with [status] 200 and the page in [data]. *)
Example get_users_page_2 :
  fst (get (runtime sample_config sample_clock transport_ok)
         (constructor sample_config (Some "https://reqres.in/api"))
         "/users?page=2&per_page=3" None (initial tt))
  = Normal {| data := JObj [("page", JNum 2); ("per_page", JNum 3)];
              status := 200; statusText := "OK";
              headers := JObj [("content-type", JStr "application/json")] |}.
Proof. vm_compute. reflexivity. Qed.

(** [get('/users/999')] against a server answering 404 with an empty
    object raises an error whose message contains [API Error] and [404]. *)
Example get_user_999 :
  fst (get (runtime sample_config sample_clock transport_404)
         (constructor sample_config (Some "https://reqres.in/api"))
         "/users/999" None (initial tt))
  = Throw (new_Error "API Error: 404 Not Found - {}").
Proof. vm_compute. reflexivity. Qed.

(** The requests of a client carry the headers given at construction,
    and the bearer token once it is set. *)
Example headers_after_setAuthToken :
  let request := verb_request GET (setAuthToken "QpwL5tke4Pnpja7X4"
                                     (constructor sample_config None))
                   "/users" JUndefined None in
  req_headers request !! "Accept" = Some "application/json"
  /\ req_headers request !! "Content-Type" = Some "application/json"
  /\ req_headers request !! "Authorization" = Some "Bearer QpwL5tke4Pnpja7X4"
  /\ req_baseURL request = "http://localhost:3000/api"
  /\ req_timeout request = 30000%Z.
Proof. vm_compute. repeat split. Qed.

(** * Further properties *)

(** ** The logger *)


Lemma append_empty_r (s : string) : s +:+ "" = s.
Proof.
  induction s as [|c s IH]; [reflexivity|].
  change (String c (s +:+ "") = String c s). now rewrite IH.
Qed.

(** X2. A log line carries its [data] only when the data is truthy: for
    [undefined], [null], [false], [0] and the empty string the line is
    the one of a call without data, [[timestamp] [LEVEL] message]. *)
Theorem formatMessage_drops_falsy_data {W} (now : W -> string) (level message : string)
    (data : JsVal) (w : W) :
  truthy data = false ->
  Logger.formatMessage now level message data w
  = Logger.formatMessage now level message JUndefined w
  /\ Logger.formatMessage now level message data w
     = Normal ("[" +:+ now w +:+ "] [" +:+ level +:+ "] " +:+ message).
Proof.
  intros Hf. unfold Logger.formatMessage. rewrite Hf. cbn [truthy truthy_value].
  now rewrite append_empty_r.
Qed.

Lemma formatMessage_drops_falsy_data_witness :
  Logger.formatMessage (@sample_clock unit) "ERROR" "count" (JNum 0) tt
  = Logger.formatMessage (@sample_clock unit) "ERROR" "count" JUndefined tt
  /\ Logger.formatMessage (@sample_clock unit) "ERROR" "count" (JNum 0) tt
     = Normal ("[" +:+ sample_clock tt +:+ "] [" +:+ "ERROR" +:+ "] " +:+ "count").
Proof.
  apply (formatMessage_drops_falsy_data sample_clock "ERROR" "count" (JNum 0) tt).
  reflexivity.
Defined.

(** ** Configuration *)

(** X3. The repository's logger is at level [DEBUG] exactly when the
    variable [TEST_ENV] is unset, empty, or [development], and at level
    [INFO] exactly when it has any other value; it is never created at
    [WARN] or [ERROR]. *)
Theorem logger_level_from_env (env : string -> option string) (timeout retryAttempts : Z) :
  let cfg := testConfig_of env timeout retryAttempts in
  (Logger.level (logger cfg) = DEBUG
   <-> env "TEST_ENV" = None \/ env "TEST_ENV" = Some ""
       \/ env "TEST_ENV" = Some "development")
  /\ (Logger.level (logger cfg) = INFO
      <-> exists v, env "TEST_ENV" = Some v /\ v <> "" /\ v <> "development")
  /\ Logger.level (logger cfg) <> WARN
  /\ Logger.level (logger cfg) <> ERROR.
Proof.
  cbn zeta. unfold logger, testConfig_of, env_or. cbn [testEnv Logger.level].
  destruct (env "TEST_ENV") as [v|].
  - destruct (String.eqb_spec v "") as [->|Hne].
    + cbn. repeat split; auto; try discriminate. intros (v & Hv & Hn & _). congruence.
    + destruct (String.eqb_spec v "development") as [->|Hnd]; cbn.
      * repeat split; auto; try discriminate. intros (v & Hv & _ & Hn). congruence.
      * repeat split; auto; try discriminate.
        -- intros [?|[?|?]]; congruence.
        -- exists v. auto.
  - cbn. repeat split; auto; try discriminate. intros (v & Hv & _). discriminate.
Qed.

(** X4. A client constructed without an argument targets the value of
    [API_BASE_URL], or [http://localhost:3000/api] when that variable is
    unset or empty; an explicit argument is taken as it is, the empty
    string included. The axios instance is given the same base address. *)
Theorem constructor_base_address (env : string -> option string) (timeout retryAttempts : Z) :
  let cfg := testConfig_of env timeout retryAttempts in
  getBaseURL (constructor cfg None)
  = match env "API_BASE_URL" with
    | None => "http://localhost:3000/api"
    | Some v => if String.eqb v "" then "http://localhost:3000/api" else v
    end
  /\ getBaseURL (constructor cfg (Some "")) = ""
  /\ (forall b, def_baseURL (defaults (client (constructor cfg b)))
                = getBaseURL (constructor cfg b)).
Proof.
  cbn zeta. unfold getBaseURL, constructor, testConfig_of, env_or. cbn.
  repeat split.
Qed.

(** ** The verb methods *)

(** X5. Each verb method hands exactly one request to the transport,
    with its own HTTP method and the URL it was given. The body of a
    [get] or [delete] request is the [data] of the per-call options; the
    body of a [post], [put] or [patch] request is the [data] argument,
    whatever the per-call options say. *)
Theorem verb_request_shape {W} testConfig (now : W -> string) transport
    (self : ApiClient) (url : string) (body : JsVal)
    (config : option AxiosRequestConfig) (s : St W) :
  let rt := runtime testConfig now transport in
  let own_data := cfg_data (default empty_call_config config) in
  (exists r, issued (get rt self url config) s = [r]
             /\ req_method r = GET /\ req_url r = url /\ req_data r = own_data)
  /\ (exists r, issued (delete rt self url config) s = [r]
                /\ req_method r = DELETE /\ req_url r = url /\ req_data r = own_data)
  /\ (exists r, issued (post rt self url body config) s = [r]
                /\ req_method r = POST /\ req_url r = url /\ req_data r = body)
  /\ (exists r, issued (put rt self url body config) s = [r]
                /\ req_method r = PUT /\ req_url r = url /\ req_data r = body)
  /\ (exists r, issued (patch rt self url body config) s = [r]
                /\ req_method r = PATCH /\ req_url r = url /\ req_data r = body).
Proof.
  cbn zeta.
  pose proof (fun m => issued_client testConfig now transport m self url body config s) as H.
  repeat split.
  - exists (verb_request GET self url body config). split; [apply (H GET)|]. now repeat split.
  - exists (verb_request DELETE self url body config). split; [apply (H DELETE)|]. now repeat split.
  - exists (verb_request POST self url body config). split; [apply (H POST)|]. now repeat split.
  - exists (verb_request PUT self url body config). split; [apply (H PUT)|]. now repeat split.
  - exists (verb_request PATCH self url body config). split; [apply (H PATCH)|]. now repeat split.
Qed.

(** The setters keep the timeout given at construction, and the two
    copies of the base address stay equal to the last one written. *)
Lemma settings_after (testConfig : TestConfig) (b : option string) (calls : list SetterCall) :
  def_timeout (defaults (client (client_after testConfig b calls))) = apiTimeout testConfig
  /\ def_baseURL (defaults (client (client_after testConfig b calls)))
     = last_base_url (default (apiBaseUrl testConfig) b) calls
  /\ baseURL (client_after testConfig b calls)
     = last_base_url (default (apiBaseUrl testConfig) b) calls.
Proof.
  unfold client_after.
  assert (H : forall self,
    def_baseURL (defaults (client self)) = baseURL self ->
    def_timeout (defaults (client (foldl apply_setter self calls)))
    = def_timeout (defaults (client self))
    /\ def_baseURL (defaults (client (foldl apply_setter self calls)))
       = last_base_url (baseURL self) calls
    /\ baseURL (foldl apply_setter self calls) = last_base_url (baseURL self) calls).
  { induction calls as [|c calls IH]; intros self Hsync; [now repeat split|].
    cbn [foldl]. unfold last_base_url. cbn [foldl]. fold (last_base_url).
    destruct (IH (apply_setter self c)) as (Ht & Hd & Hb); [now destruct c|].
    rewrite Ht, Hd, Hb. unfold last_base_url. now destruct c. }
  apply (H (constructor testConfig b)). reflexivity.
Qed.

(** X6. On a client made by the constructor and any history of setter
    calls, a request issued without per-call options goes to the base
    address last written, has the timeout of the configuration, and
    carries [Content-Type: application/json] and
    [Accept: application/json]. *)
Theorem request_defaults {W} testConfig (now : W -> string) transport
    (b : string) (calls : list SetterCall) (m : Method) (url : string) (body : JsVal)
    (s : St W) :
  exists r,
    issued (call_verb (runtime testConfig now transport) m
              (client_after testConfig (Some b) calls) url body None) s = [r]
    /\ req_baseURL r = last_base_url b calls
    /\ req_timeout r = apiTimeout testConfig
    /\ req_headers r !! "Content-Type" = Some "application/json"
    /\ req_headers r !! "Accept" = Some "application/json".
Proof.
  eexists. split; [apply issued_client|].
  destruct (settings_after testConfig (Some b) calls) as (Ht & Hd & _).
  unfold verb_request, mergeConfig.
  cbn [req_baseURL req_timeout req_headers default from_option id empty_call_config
       cfg_baseURL cfg_timeout cfg_headers].
  rewrite Ht, Hd, own_headers_after. repeat split.
  - apply headers_lookup_union_l. rewrite headers_lookup_union_r; reflexivity.
  - apply headers_lookup_union_l. rewrite headers_lookup_union_r; reflexivity.
Qed.

(** X7. Per-call options win over the client's settings: a request
    issued with options that give a base address, a timeout and a header
    goes out with exactly these, whatever the setters wrote before. *)
Theorem per_call_options_override {W} testConfig (now : W -> string) transport
    (self : ApiClient) (m : Method) (url : string) (body : JsVal)
    (config : AxiosRequestConfig) (u : string) (t : Z) (k v : string) (s : St W) :
  cfg_baseURL config = Some u ->
  cfg_timeout config = Some t ->
  cfg_headers config !! k = Some v ->
  exists r,
    issued (call_verb (runtime testConfig now transport) m self url body (Some config)) s = [r]
    /\ req_baseURL r = u
    /\ req_timeout r = t
    /\ req_headers r !! k = Some v.
Proof.
  intros Hu Ht Hk.
  eexists. split; [apply issued_client|].
  unfold verb_request, mergeConfig.
  cbn [req_baseURL req_timeout req_headers default from_option id].
  rewrite Hu, Ht. cbn [from_option id]. repeat split.
  now apply headers_lookup_union_l, headers_lookup_union_l.
Qed.

Lemma per_call_options_override_witness :
  exists r,
    issued (call_verb (runtime sample_config sample_clock transport_ok) GET
              (setAuthToken "QpwL5tke4Pnpja7X4" (constructor sample_config None)) "/users"
              JUndefined
              (Some {| cfg_baseURL := Some "https://reqres.in/api"; cfg_timeout := Some 500%Z;
                       cfg_headers := {[ "Authorization" := "Basic dXNlcjpwYXNz" ]};
                       cfg_data := JUndefined |})) (initial tt)
    = [r]
    /\ req_baseURL r = "https://reqres.in/api"
    /\ req_timeout r = 500%Z
    /\ req_headers r !! "Authorization" = Some "Basic dXNlcjpwYXNz".
Proof.
  apply (per_call_options_override sample_config sample_clock transport_ok
           (setAuthToken "QpwL5tke4Pnpja7X4" (constructor sample_config None)) GET "/users"
           JUndefined
           {| cfg_baseURL := Some "https://reqres.in/api"; cfg_timeout := Some 500%Z;
              cfg_headers := {[ "Authorization" := "Basic dXNlcjpwYXNz" ]};
              cfg_data := JUndefined |}
           "https://reqres.in/api" 500%Z "Authorization" "Basic dXNlcjpwYXNz" (initial tt));
    reflexivity.
Defined.

(** X8. Whatever a verb method throws is an object made anew, never
    the failure object of the transport: it carries no [response], no
    [request] and no [config], so a caller cannot read
    [error.response]. It is the [Error] built by [handleError], with a
    message of one of the three forms, unless the failure has no
    response and a request object with a cycle: then it is the
    [TypeError] that [JSON.stringify] throws inside [logger.error], of
    none of the three forms. *)
Theorem raised_errors_are_plain {W} testConfig (now : W -> string) transport
    (m : Method) (self : ApiClient) (url : string) (body : JsVal)
    (config : option AxiosRequestConfig) (s : St W) (raised : ErrObj) :
  fst (call_verb (runtime testConfig now transport) m self url body config s) = Throw raised ->
  exists error,
    fst (transport (verb_request m self url body config) (world s)) = Throw error
    /\ err_response raised = None
    /\ err_request raised = JUndefined
    /\ err_config raised = None
    /\ get_property raised "response" = JUndefined
    /\ match err_response error, err_request error with
       | None, Cyclic description =>
           raised = TypeError_circular description /\ error_kind raised = None
       | _, _ =>
           raised = new_Error (handled_message error)
           /\ error_kind raised = Some (classify error)
       end.
Proof.
  destruct (call_verb_client testConfig now transport m self url body config s)
    as (ext & -> & _).
  cbn [fst].
  destruct (fst (transport _ (world s))) as [response|error]; cbn [client_outcome];
    [discriminate|].
  intros [= <-]. exists error. split; [reflexivity|]. unfold raised_for.
  destruct (err_response error) as [response|];
    [|destruct (err_request error) as [v|description]];
    repeat split; apply error_kind_handled.
Qed.

Lemma raised_errors_are_plain_witness :
  exists error,
    fst (@transport_refused unit
           (verb_request GET (constructor sample_config None) "/users" JUndefined None) tt)
    = Throw error
    /\ err_response
         (TypeError_circular " --> starting at object with constructor 'ClientRequest'") = None
    /\ err_request
         (TypeError_circular " --> starting at object with constructor 'ClientRequest'")
       = JUndefined
    /\ err_config
         (TypeError_circular " --> starting at object with constructor 'ClientRequest'") = None
    /\ get_property
         (TypeError_circular " --> starting at object with constructor 'ClientRequest'")
         "response" = JUndefined
    /\ match err_response error, err_request error with
       | None, Cyclic description =>
           TypeError_circular " --> starting at object with constructor 'ClientRequest'"
           = TypeError_circular description
           /\ error_kind
                (TypeError_circular " --> starting at object with constructor 'ClientRequest'")
              = None
       | _, _ =>
           TypeError_circular " --> starting at object with constructor 'ClientRequest'"
           = new_Error (handled_message error)
           /\ error_kind
                (TypeError_circular " --> starting at object with constructor 'ClientRequest'")
              = Some (classify error)
       end.
Proof.
  apply (raised_errors_are_plain sample_config sample_clock transport_refused GET
           (constructor sample_config None) "/users" JUndefined None (initial tt)
           (TypeError_circular " --> starting at object with constructor 'ClientRequest'")).
  vm_compute. reflexivity.
Defined.

(** X9. When the transport fails with a request and no response (a
    timeout, a refused connection), the failure's own message is not
    passed on. If the request object can be serialised, the error raised
    by a verb method has the fixed message
    [Network Error: No response received]; if the request object has a
    cycle (as the request object of the HTTP adapter has), the verb
    method throws the [TypeError] of [JSON.stringify] instead. *)
Theorem no_response_message_is_fixed {W} testConfig (now : W -> string) transport
    (m : Method) (self : ApiClient) (url : string) (body : JsVal)
    (config : option AxiosRequestConfig) (s : St W) (error : ErrObj) (w' : W) :
  transport (verb_request m self url body config) (world s) = (Throw error, w') ->
  err_response error = None ->
  truthy (err_request error) = true ->
  fst (call_verb (runtime testConfig now transport) m self url body config s)
  = Throw (match err_request error with
           | Plain _ => new_Error "Network Error: No response received"
           | Cyclic description => TypeError_circular description
           end)
  /\ forall text,
       fst (call_verb (runtime testConfig now (fun r w => (Throw (with_message text error), w')))
              m self url body config s)
       = fst (call_verb (runtime testConfig now transport) m self url body config s).
Proof.
  intros Ht Hresp Hreq.
  destruct (call_verb_client testConfig now transport m self url body config s)
    as (ext & -> & _).
  rewrite Ht. cbn [fst client_outcome]. unfold raised_for, handled_message. rewrite Hresp.
  split.
  - destruct (err_request error) as [v|description]; [|reflexivity]. now rewrite Hreq.
  - intros text.
    destruct (call_verb_client testConfig now (fun r w => (Throw (with_message text error), w'))
                m self url body config s) as (ext' & -> & _).
    cbn [fst client_outcome]. unfold raised_for, handled_message.
    cbn [with_message err_response err_request]. rewrite Hresp.
    destruct (err_request error) as [v|description]; [|reflexivity]. now rewrite Hreq.
Qed.

Lemma no_response_message_is_fixed_witness :
  fst (call_verb (runtime sample_config sample_clock transport_timeout) GET
         (constructor sample_config None) "/users" JUndefined None (initial tt))
  = Throw (match err_request failure_timeout with
           | Plain _ => new_Error "Network Error: No response received"
           | Cyclic description => TypeError_circular description
           end)
  /\ forall text,
       fst (call_verb (runtime sample_config sample_clock
                         (fun r w => (Throw (with_message text failure_timeout), tt)))
              GET (constructor sample_config None) "/users" JUndefined None (initial tt))
       = fst (call_verb (runtime sample_config sample_clock transport_timeout) GET
                (constructor sample_config None) "/users" JUndefined None (initial tt)).
Proof.
  apply (no_response_message_is_fixed sample_config sample_clock transport_timeout GET
           (constructor sample_config None) "/users" JUndefined None (initial tt)
           failure_timeout tt); reflexivity.
Defined.

(** X10. A verb method returns normally exactly when the transport
    resolved and throws exactly when the transport rejected: no failure
    is swallowed and no success is turned into a failure; the world is
    left as the transport left it. *)
Theorem verb_outcome_follows_transport {W} testConfig (now : W -> string) transport
    (m : Method) (self : ApiClient) (url : string) (body : JsVal)
    (config : option AxiosRequestConfig) (s : St W) :
  let run := call_verb (runtime testConfig now transport) m self url body config s in
  let sent := transport (verb_request m self url body config) (world s) in
  ((exists envelope, fst run = Normal envelope) <-> (exists response, fst sent = Normal response))
  /\ ((exists raised, fst run = Throw raised) <-> (exists error, fst sent = Throw error))
  /\ world (snd run) = snd sent.
Proof.
  cbn zeta.
  destruct (call_verb_client testConfig now transport m self url body config s)
    as (ext & -> & _).
  cbn [fst snd world].
  destruct (fst (transport _ (world s))) as [response|error]; cbn [client_outcome].
  - repeat split; try (intros _; eexists; reflexivity); intros [? [=]].
  - repeat split; try (intros _; eexists; reflexivity); intros [? [=]].
Qed.

(** ** Console output of a call *)

Lemma console_app (tr1 tr2 : list Event) : console (tr1 ++ tr2) = (console tr1 ++ console tr2)%list.
Proof. unfold console. apply flat_map_app. Qed.

Lemma startsWith_refl (p : string) : Js.startsWith p p = true.
Proof.
  induction p as [|c p IH]; [reflexivity|]. cbn [Js.startsWith]. now rewrite Ascii.eqb_refl.
Qed.

(** The message that [handleError] logs begins the message of the error
    it returns. *)
Lemma handled_log_message_prefix (error : ErrObj) :
  Js.startsWith (handled_log_message error) (handled_message error) = true.
Proof.
  unfold handled_log_message, handled_message.
  destruct (err_response error) as [response|].
  - apply startsWith_append.
  - destruct (truthy (err_request error)); apply startsWith_refl.
Qed.

(** A line is always made for data that can be serialised. *)
Lemma formatMessage_plain {W} (now : W -> string) (level message : string) (data : JsVal)
    (w : W) :
  exists line, Logger.formatMessage now level message data w = Normal line.
Proof.
  unfold Logger.formatMessage. cbn [JSON_stringify_any].
  destruct (truthy data); eexists; reflexivity.
Qed.

Section InfoLevel.
Context {W : Type}.
Variable testConfig : TestConfig.
Variable now : W -> string.
Variable transport : InternalRequestConfig -> W -> Completion ErrObj AxiosResponse * W.
Hypothesis not_development : String.eqb (testEnv testConfig) "development" = false.

Let rt := runtime testConfig now transport.

Lemma debug_silent_at_info (message : string) (data : JsAny) (s : St W) :
  do_log (cap_debug (rt_logger rt)) message data s = (Normal tt, mkSt (world s) (trace s ++ [])).
Proof.
  unfold do_log, rt, runtime, logger. cbn [rt_logger Logger.cap cap_debug].
  unfold Logger.debug, Logger.log. now rewrite not_development.
Qed.

(** At level [INFO], [logger.error] prints the line that
    [formatMessage] makes, or throws what [formatMessage] throws. *)
Lemma error_at_info (message : string) (data : JsAny) (s : St W) :
  do_log (cap_error (rt_logger rt)) message data s
  = match Logger.formatMessage now "ERROR" message data (world s) with
    | Normal line => (Normal tt, mkSt (world s) (trace s ++ [EvConsole line]))
    | Throw x => (Throw x, s)
    end.
Proof.
  unfold do_log, rt, runtime, logger. cbn [rt_logger Logger.cap cap_error].
  unfold Logger.error, Logger.log. rewrite not_development. cbn [Logger.level LogLevel_value].
  change (1 <=? 3)%Z with true. cbv iota.
  now destruct (Logger.formatMessage now "ERROR" message data (world s)).
Qed.

Lemma request_fulfilled_at_info (config : InternalRequestConfig) (s : St W) :
  exists tr,
    request_fulfilled (setupInterceptors rt) config s = (Normal config, mkSt (world s) tr)
    /\ console tr = console (trace s).
Proof.
  unfold setupInterceptors, request_fulfilled, mbind, M_bind, bind, mret, M_ret, ret.
  rewrite debug_silent_at_info. destruct (truthy (req_data config)).
  - rewrite debug_silent_at_info. cbn [world trace].
    eexists. split; [reflexivity|]. now rewrite !app_nil_r.
  - cbn [world trace]. eexists. split; [reflexivity|]. now rewrite !app_nil_r.
Qed.

Lemma response_fulfilled_at_info (response : AxiosResponse) (s : St W) :
  exists tr,
    response_fulfilled (setupInterceptors rt) response s = (Normal response, mkSt (world s) tr)
    /\ console tr = console (trace s).
Proof.
  unfold setupInterceptors, response_fulfilled, mbind, M_bind, bind, mret, M_ret, ret.
  rewrite debug_silent_at_info. cbn [world trace]. rewrite debug_silent_at_info.
  cbn [world trace]. eexists. split; [reflexivity|]. now rewrite !app_nil_r.
Qed.

Lemma response_rejected_at_info (error : ErrObj) (s : St W) :
  exists line,
    Logger.formatMessage now "ERROR" "Response Error:" (response_error_details error) (world s)
    = Normal line
    /\ response_rejected (setupInterceptors rt) error s
       = (Throw error, mkSt (world s) (trace s ++ [EvConsole line])).
Proof.
  destruct (formatMessage_plain now "ERROR" "Response Error:" (response_error_details error)
              (world s)) as [line Hline].
  exists line. split; [exact Hline|].
  unfold setupInterceptors, response_rejected, mbind, M_bind, bind, throw.
  fold (response_error_details error).
  rewrite error_at_info, Hline. reflexivity.
Qed.

Lemma handleError_at_info (error : ErrObj) (s : St W) :
  handleError rt error s
  = match Logger.formatMessage now "ERROR" (handled_log_message error)
            (handled_log_data error) (world s) with
    | Normal line =>
        (Normal (new_Error (handled_message error)),
         mkSt (world s) (trace s ++ [EvConsole line]))
    | Throw x => (Throw x, s)
    end.
Proof.
  unfold handleError, handled_message, handled_log_message, handled_log_data,
    mbind, M_bind, bind, mret, M_ret, ret.
  destruct (err_response error) as [response|].
  - rewrite error_at_info. now destruct (Logger.formatMessage _ _ _ _ _).
  - destruct (truthy (err_request error)); rewrite error_at_info;
      now destruct (Logger.formatMessage _ _ _ _ _).
Qed.

Lemma verb_console_at_info (self : AxiosInstance) (m : Method) (url : string) (data : JsVal)
    (config : option AxiosRequestConfig) (s : St W) :
  let request := mergeConfig (defaults self) m url data config in
  let run := verb rt (Axios_request rt self m url data config) s in
  match transport request (world s) with
  | (Normal _, _) => console (trace (snd run)) = console (trace s)
  | (Throw error, w') =>
      exists first_line,
        Logger.formatMessage now "ERROR" "Response Error:" (response_error_details error) w'
        = Normal first_line
        /\ match Logger.formatMessage now "ERROR" (handled_log_message error)
                   (handled_log_data error) w' with
           | Normal second_line =>
               console (trace (snd run))
               = (console (trace s) ++ [first_line; second_line])%list
               /\ fst run = Throw (new_Error (handled_message error))
           | Throw typeError =>
               console (trace (snd run)) = (console (trace s) ++ [first_line])%list
               /\ fst run = Throw typeError
           end
  end.
Proof.
  cbn zeta. unfold verb, try_catch, Axios_request, then_, mbind, M_bind, bind.
  unfold mret, M_ret, ret. cbv beta iota.
  destruct (request_fulfilled_at_info (mergeConfig (defaults self) m url data config) s)
    as (tr1 & -> & Hc1).
  unfold dispatchRequest. cbn [world trace]. change (rt_transport rt) with transport.
  destruct (transport _ (world s)) as [[response|error] w'].
  - edestruct response_fulfilled_at_info as (tr2 & -> & Hc2).
    cbn [snd trace] in *.
    rewrite Hc2, console_app, Hc1. cbn. now rewrite app_nil_r.
  - unfold throw.
    edestruct (response_rejected_at_info error) as (line & Hline & ->).
    cbn [world trace] in *. exists line. split; [exact Hline|].
    rewrite handleError_at_info. cbn [world trace].
    destruct (Logger.formatMessage now "ERROR" (handled_log_message error)
                (handled_log_data error) w') as [second|typeError]; cbn [fst snd trace].
    + split; [|reflexivity]. rewrite !console_app, Hc1. cbn. now rewrite <- !app_assoc.
    + split; [|reflexivity]. rewrite !console_app, Hc1. cbn. now rewrite app_nil_r.
Qed.

End InfoLevel.

(** X11. With the logger at level [INFO] (the variable [TEST_ENV] set to
    anything but [development]), a verb call that succeeds prints
    nothing. A verb call that fails prints the [ERROR] line of the
    response interceptor, with the message [Response Error:] and the
    status, status text, body and URL of the failure as data, and then
    the [ERROR] line of [handleError], with the message
    [handled_log_message] (the beginning of the raised error's message)
    and the data [handled_log_data]: exactly these two lines. When the
    second line cannot be made, because the data is a request object
    with a cycle, only the first line is printed and the call throws the
    [TypeError] of [JSON.stringify]. *)
Theorem console_at_info_level {W} testConfig (now : W -> string) transport
    (m : Method) (self : ApiClient) (url : string) (body : JsVal)
    (config : option AxiosRequestConfig) (s : St W) :
  String.eqb (testEnv testConfig) "development" = false ->
  let run := call_verb (runtime testConfig now transport) m self url body config s in
  match transport (verb_request m self url body config) (world s) with
  | (Normal _, _) => console (trace (snd run)) = console (trace s)
  | (Throw error, w') =>
      exists first_line,
        Logger.formatMessage now "ERROR" "Response Error:" (response_error_details error) w'
        = Normal first_line
        /\ Js.startsWith (handled_log_message error) (handled_message error) = true
        /\ match Logger.formatMessage now "ERROR" (handled_log_message error)
                   (handled_log_data error) w' with
           | Normal second_line =>
               console (trace (snd run))
               = (console (trace s) ++ [first_line; second_line])%list
               /\ fst run = Throw (new_Error (handled_message error))
           | Throw typeError =>
               console (trace (snd run)) = (console (trace s) ++ [first_line])%list
               /\ fst run = Throw typeError
           end
  end.
Proof.
  intros Hinfo. cbn zeta.
  assert (H : forall data,
    verb_request m self url body config = mergeConfig (defaults (client self)) m url data config ->
    call_verb (runtime testConfig now transport) m self url body config
    = verb (runtime testConfig now transport)
        (Axios_request (runtime testConfig now transport) (client self) m url data config) ->
    match transport (verb_request m self url body config) (world s) with
    | (Normal _, _) =>
        console (trace (snd (call_verb (runtime testConfig now transport) m self url body
                               config s)))
        = console (trace s)
    | (Throw error, w') =>
        exists first_line,
          Logger.formatMessage now "ERROR" "Response Error:" (response_error_details error) w'
          = Normal first_line
          /\ Js.startsWith (handled_log_message error) (handled_message error) = true
          /\ match Logger.formatMessage now "ERROR" (handled_log_message error)
                     (handled_log_data error) w' with
             | Normal second_line =>
                 console (trace (snd (call_verb (runtime testConfig now transport) m self url
                                        body config s)))
                 = (console (trace s) ++ [first_line; second_line])%list
                 /\ fst (call_verb (runtime testConfig now transport) m self url body config s)
                    = Throw (new_Error (handled_message error))
             | Throw typeError =>
                 console (trace (snd (call_verb (runtime testConfig now transport) m self url
                                        body config s)))
                 = (console (trace s) ++ [first_line])%list
                 /\ fst (call_verb (runtime testConfig now transport) m self url body config s)
                    = Throw typeError
             end
    end).
  { intros data -> ->.
    pose proof (verb_console_at_info testConfig now transport Hinfo (client self) m url data
                  config s) as Hv.
    cbn zeta in Hv.
    destruct (transport _ (world s)) as [[response|error] w']; [exact Hv|].
    destruct Hv as (line & Hline & Hrest). exists line. split; [exact Hline|].
    split; [apply handled_log_message_prefix | exact Hrest]. }
  destruct m; eapply H; reflexivity.
Qed.

Lemma console_at_info_level_witness :
  exists first_line,
    Logger.formatMessage sample_clock "ERROR" "Response Error:"
      (response_error_details failure_refused) tt
    = Normal first_line
    /\ Js.startsWith (handled_log_message failure_refused) (handled_message failure_refused)
       = true
    /\ match Logger.formatMessage sample_clock "ERROR" (handled_log_message failure_refused)
               (handled_log_data failure_refused) tt with
       | Normal second_line =>
           console (trace (snd (call_verb
                                  (runtime (mkTestConfig "http://localhost:3000/api" "ci" 30000 3)
                                     sample_clock transport_refused)
                                  GET (constructor sample_config None) "/users" JUndefined None
                                  (initial tt))))
           = (console [] ++ [first_line; second_line])%list
           /\ fst (call_verb
                     (runtime (mkTestConfig "http://localhost:3000/api" "ci" 30000 3)
                        sample_clock transport_refused)
                     GET (constructor sample_config None) "/users" JUndefined None (initial tt))
              = Throw (new_Error (handled_message failure_refused))
       | Throw typeError =>
           console (trace (snd (call_verb
                                  (runtime (mkTestConfig "http://localhost:3000/api" "ci" 30000 3)
                                     sample_clock transport_refused)
                                  GET (constructor sample_config None) "/users" JUndefined None
                                  (initial tt))))
           = (console [] ++ [first_line])%list
           /\ fst (call_verb
                     (runtime (mkTestConfig "http://localhost:3000/api" "ci" 30000 3)
                        sample_clock transport_refused)
                     GET (constructor sample_config None) "/users" JUndefined None (initial tt))
              = Throw typeError
       end.
Proof.
  apply (console_at_info_level (mkTestConfig "http://localhost:3000/api" "ci" 30000 3)
           sample_clock transport_refused GET (constructor sample_config None) "/users"
           JUndefined None (initial tt)).
  reflexivity.
Defined.

(** ** The configuration setters *)

(** X12. For the authorization token the last call wins: a second
    [setAuthToken] replaces the first, [removeAuthToken] undoes any
    [setAuthToken] before it, removing twice is removing once, and a
    removal before a [setAuthToken] leaves no mark. *)
Theorem auth_token_last_call_wins (self : ApiClient) (t1 t2 : string) :
  setAuthToken t2 (setAuthToken t1 self) = setAuthToken t2 self
  /\ removeAuthToken (setAuthToken t1 self) = removeAuthToken self
  /\ removeAuthToken (removeAuthToken self) = removeAuthToken self
  /\ setAuthToken t1 (removeAuthToken self) = setAuthToken t1 self.
Proof.
  unfold setAuthToken, removeAuthToken, with_common. cbn.
  repeat split; do 4 f_equal.
  - apply headers_insert_insert.
  - apply headers_delete_insert.
  - apply headers_delete_delete.
  - apply headers_insert_delete.
Qed.

(** X13. The base address and the authorization token are independent
    settings: [setBaseURL] commutes with [setAuthToken] and with
    [removeAuthToken], neither changes what the other wrote, and a second
    [setBaseURL] replaces the first. *)
Theorem base_address_and_token_independent (self : ApiClient) (u u' token : string) :
  setBaseURL u (setAuthToken token self) = setAuthToken token (setBaseURL u self)
  /\ setBaseURL u (removeAuthToken self) = removeAuthToken (setBaseURL u self)
  /\ getBaseURL (setAuthToken token self) = getBaseURL self
  /\ getBaseURL (removeAuthToken self) = getBaseURL self
  /\ def_headers (defaults (client (setBaseURL u self))) = def_headers (defaults (client self))
  /\ setBaseURL u' (setBaseURL u self) = setBaseURL u' self.
Proof. repeat split. Qed.

(** ** More on the retry wrapper *)

Lemma sum_Z_app (l1 l2 : list Z) : sum_Z (l1 ++ l2) = (sum_Z l1 + sum_Z l2)%Z.
Proof.
  unfold sum_Z. induction l1 as [|x l1 IH]; cbn [foldr app]; [reflexivity|]. rewrite IH. lia.
Qed.

(** Twice the sum of [d * a], [d * (a + 1)], ..., [d * (a + k - 1)]. *)
Lemma sum_Z_linear (d a : Z) (k : nat) :
  (2 * sum_Z (List.map (fun i => d * i) (seqZ a (Z.of_nat k)))
   = d * Z.of_nat k * (2 * a + Z.of_nat k - 1))%Z.
Proof.
  revert a. induction k as [|k IH]; intros a.
  { rewrite seqZ_nil by (cbn; lia). cbn. lia. }
  replace (Z.of_nat (S k)) with (Z.succ (Z.of_nat k)) by lia.
  rewrite seqZ_cons by lia. cbn [List.map]. unfold sum_Z in *. cbn [foldr].
  replace (Z.pred (Z.succ (Z.of_nat k))) with (Z.of_nat k) by lia.
  specialize (IH (Z.succ a)). nia.
Qed.

Section RetryMore.
Context {W T : Type}.
Variable testConfig : TestConfig.
Variable now : W -> string.
Variable transport : InternalRequestConfig -> W -> Completion ErrObj AxiosResponse * W.
Variable operation : W -> Completion Thrown T * W.

Let rt := runtime testConfig now transport.

(** The loop when the first [k] calls reject, never with [undefined] or
    [null], and the next one resolves within the attempts allowed. *)
Lemma retry_loop_first_success (N d : Z) (v : T) :
  forall (k fuel : nat) (attempt : Z) (last : option Thrown) (s : St W) (w' : W),
    (attempt + Z.of_nat k <= N)%Z ->
    (k < fuel)%nat ->
    (forall j, (j < k)%nat ->
               exists error, fst (operation (world_after operation j (world s))) = Throw error
                             /\ nullish error = false) ->
    operation (world_after operation k (world s)) = (Normal v, w') ->
    exists s',
      retry_loop rt operation N d fuel attempt last s = Some (Normal v, s')
      /\ world s' = w'
      /\ invocations (trace s') = (invocations (trace s) + S k)%nat
      /\ delays (trace s')
         = (delays (trace s) ++ List.map (fun i => d * i)%Z (seqZ attempt (Z.of_nat k)))%list
      /\ length (console (trace s')) = (length (console (trace s)) + k)%nat.
Proof.
  unfold rt.
  induction k as [|k IH]; intros fuel attempt last s w' Hn Hfuel Hfail Hok;
    (destruct fuel as [|fuel]; [lia|]).
  - cbn [world_after] in Hok.
    rewrite (retry_loop_resolved testConfig now transport operation N d fuel attempt last s v w'
               ltac:(lia) Hok).
    eexists. split; [reflexivity|]. cbn [world trace].
    rewrite invocations_app, delays_app, console_app, length_app, seqZ_nil by (cbn; lia). cbn.
    repeat split; try lia; now rewrite !app_nil_r.
  - destruct (Hfail 0%nat ltac:(lia)) as (error & Herr & Hread). cbn [world_after] in Herr.
    destruct (thrown_message_readable error Hread) as [message Hmsg].
    destruct (operation (world s)) as [r w1] eqn:Hop. cbn [fst] in Herr. subst r.
    rewrite (retry_loop_rejected testConfig now transport operation N d fuel attempt last s
               error message w1 ltac:(lia) Hop Hmsg).
    destruct (Z.eqb_spec attempt N); [lia|].
    edestruct (IH fuel (attempt + 1)%Z (Some error)) as (s' & Hrun & Hw & Hi & Hd & Hc);
      [| | | | rewrite Hrun].
    + lia.
    + lia.
    + intros j Hj. cbn [world]. specialize (Hfail (S j) ltac:(lia)).
      cbn [world_after] in Hfail. rewrite Hop in Hfail. exact Hfail.
    + cbn [world]. cbn [world_after] in Hok. rewrite Hop in Hok. exact Hok.
    + cbn [world trace] in *. exists s'. split; [reflexivity|].
      split; [exact Hw|]. split; [|split].
      * rewrite Hi, invocations_app. cbn. lia.
      * rewrite Hd, delays_app. cbn [delays flat_map app]. rewrite <- app_assoc. f_equal.
        replace (Z.of_nat (S k)) with (Z.succ (Z.of_nat k)) by lia.
        rewrite (seqZ_cons attempt) by lia. cbn [List.map app]. do 3 f_equal; lia.
      * rewrite Hc, console_app, length_app. cbn. lia.
Qed.


End RetryMore.

(** X14. If the first [k] calls of the operation reject, never with
    [undefined] or [null], and call [k + 1] resolves, with
    [k < maxAttempts], then [withRetry] returns the value of call
    [k + 1] after exactly [k + 1] calls, having waited [delay * 1], ...,
    [delay * k] and printed one line per failed attempt; with [k = 0]
    the operation is called once and nothing is waited for or
    printed. *)
Theorem withRetry_returns_first_success {W T} testConfig (now : W -> string) transport
    (operation : W -> Completion Thrown T * W) (N : Z) (delayMs : option Z) (s : St W)
    (k : nat) (v : T) (w' : W) :
  (Z.of_nat k < N)%Z ->
  (forall j, (j < k)%nat ->
             exists error, fst (operation (world_after operation j (world s))) = Throw error
                           /\ nullish error = false) ->
  operation (world_after operation k (world s)) = (Normal v, w') ->
  exists s',
    withRetry (runtime testConfig now transport) operation testConfig (Some N) delayMs s
    = Some (Normal v, s')
    /\ world s' = w'
    /\ invocations (trace s') = (invocations (trace s) + S k)%nat
    /\ delays (trace s')
       = (delays (trace s)
          ++ List.map (fun i => default 1000 delayMs * i)%Z (seqZ 1 (Z.of_nat k)))%list
    /\ length (console (trace s')) = (length (console (trace s)) + k)%nat.
Proof.
  intros Hk Hfail Hok. unfold withRetry. cbn [default from_option id].
  apply (retry_loop_first_success testConfig now transport operation N _ v k
           (Z.to_nat N) 1 None s w'); (lia || assumption).
Qed.

Lemma withRetry_returns_first_success_witness :
  exists s',
    withRetry (runtime sample_config sample_clock transport_ok) (flaky 1) sample_config
      (Some 5%Z) (Some 250%Z) (initial 0%nat)
    = Some (Normal 1%nat, s')
    /\ world s' = 2%nat
    /\ invocations (trace s') = (invocations [] + 2)%nat
    /\ delays (trace s') = (delays [] ++ List.map (fun i => 250 * i)%Z (seqZ 1 (Z.of_nat 1)))%list
    /\ length (console (trace s')) = (length (console []) + 1)%nat.
Proof.
  apply (withRetry_returns_first_success sample_config sample_clock transport_ok (flaky 1)
           5%Z (Some 250%Z) (initial 0%nat) 1%nat 1%nat 2%nat).
  - lia.
  - intros j Hj. assert (j = 0%nat) as -> by lia. eexists. split; reflexivity.
  - reflexivity.
Defined.

(** X15. When every call of the operation rejects, never with
    [undefined] or [null], the time [withRetry] spends waiting is
    [delay * N * (N - 1) / 2] milliseconds for [maxAttempts = N >= 1]:
    the waits [delay * 1], ..., [delay * (N - 1)] add up linearly in the
    delay and quadratically in [N]. *)
Theorem withRetry_total_wait {W T} testConfig (now : W -> string) transport
    (operation : W -> Completion Thrown T * W) (N : Z) (delayMs : option Z) (s : St W) :
  (1 <= N)%Z ->
  (forall w, exists error, fst (operation w) = Throw error /\ nullish error = false) ->
  exists outcome s',
    withRetry (runtime testConfig now transport) operation testConfig (Some N) delayMs s
    = Some (outcome, s')
    /\ (2 * (sum_Z (delays (trace s')) - sum_Z (delays (trace s)))
        = default 1000 delayMs * N * (N - 1))%Z.
Proof.
  intros HN Hfail. unfold withRetry. cbn [default from_option id].
  destruct (retry_loop_exhausted testConfig now transport operation N
              (default 1000%Z delayMs) Hfail (Z.to_nat N - 1) (Z.to_nat N) 1 None s)
    as (error & s' & Hrun & _ & _ & _ & Hd); [lia | lia |].
  exists (Throw (Some error)), s'. split; [exact Hrun|].
  rewrite Hd, sum_Z_app.
  pose proof (sum_Z_linear (default 1000%Z delayMs) 1 (Z.to_nat N - 1)) as Hsum.
  replace (Z.of_nat (Z.to_nat N - 1)) with (N - 1)%Z in * by lia. nia.
Qed.

Lemma withRetry_total_wait_witness :
  exists outcome s',
    withRetry (runtime sample_config sample_clock transport_ok) always_failing sample_config
      (Some 4%Z) (Some 1000%Z) (initial 0%nat)
    = Some (outcome, s')
    /\ (2 * (sum_Z (delays (trace s')) - sum_Z (delays [])) = 1000 * 4 * (4 - 1))%Z.
Proof.
  apply (withRetry_total_wait sample_config sample_clock transport_ok always_failing
           4%Z (Some 1000%Z) (initial 0%nat)).
  - lia.
  - intros w. eexists. split; reflexivity.
Defined.



(** X17. With [maxAttempts <= 0], given explicitly or taken from the
    configuration, [withRetry] never calls the operation: it throws the
    unassigned [lastError], that is [undefined], at once, and leaves the
    world and the trace as they were. *)
Theorem withRetry_without_attempts {W T} (rt : Runtime W)
    (operation : W -> Completion Thrown T * W) testConfig
    (maxAttempts delayMs : option Z) (s : St W) :
  (default (apiRetryAttempts testConfig) maxAttempts <= 0)%Z ->
  withRetry rt operation testConfig maxAttempts delayMs s = Some (Throw None, s).
Proof.
  intros HN. unfold withRetry.
  replace (Z.to_nat (default (apiRetryAttempts testConfig) maxAttempts)) with 0%nat by lia.
  cbn [retry_loop]. destruct (Z.leb_spec 1 (default (apiRetryAttempts testConfig) maxAttempts));
    [lia | reflexivity].
Qed.

Lemma withRetry_without_attempts_witness :
  withRetry (runtime sample_config sample_clock transport_ok) (flaky 0)
    (mkTestConfig "http://localhost:3000/api" "development" 30000 0) None None (initial 7%nat)
  = Some (Throw None, initial 7%nat).
Proof.
  apply (withRetry_without_attempts (runtime sample_config sample_clock transport_ok) (flaky 0)
           (mkTestConfig "http://localhost:3000/api" "development" 30000 0) None None
           (initial 7%nat)).
  simpl. lia.
Defined.



(** ** The client of the demo API *)

Section ReqResProperties.
Context {W : Type}.
Variable testConfig : TestConfig.
Variable now : W -> string.
Variable transport : InternalRequestConfig -> W -> Completion ErrObj AxiosResponse * W.

Let rt := runtime testConfig now transport.

(** The operations retried by the client: a verb call without per-call
    options, followed by the read of the body. *)
Let retried (m : Method) (self : ApiClient) (url : string) (body : JsVal) (inner : bool) :=
  ReqResApiClient.as_operation
    (ReqResApiClient.read_body (call_verb rt m self url body None) inner).

(** One run of a verb call: one more request in the trace, and the
    outcome of the transport passed through the client. *)
Lemma verb_run (m : Method) (self : ApiClient) (url : string) (body : JsVal) (s : St W) :
  let request := verb_request m self url body None in
  exists tr,
    call_verb rt m self url body None s
    = (client_outcome (fst (transport request (world s))),
       mkSt (snd (transport request (world s))) tr)
    /\ dispatched tr = (dispatched (trace s) ++ [request])%list.
Proof.
  cbn zeta. unfold rt.
  destruct (call_verb_client testConfig now transport m self url body None s)
    as (ext & -> & Hd).
  eexists. split; [reflexivity|].
  now rewrite dispatched_app, Hd.
Qed.

Lemma read_body_state (call : M W ErrObj ApiResponse) (inner : bool) (s : St W) :
  snd (ReqResApiClient.as_operation (ReqResApiClient.read_body call inner) s) = snd (call s).
Proof.
  unfold ReqResApiClient.as_operation, ReqResApiClient.read_body.
  destruct (call s) as [[response|error] s']; [|reflexivity].
  destruct inner; [destruct (prop _ _)|]; reflexivity.
Qed.

(** A retried operation keeps the requests it sends in the trace of its
    world, and leaves the world to the transport. *)
Lemma retried_requests (m : Method) (self : ApiClient) (url : string) (body : JsVal)
    (inner : bool) (k : nat) :
  forall s : St W,
    dispatched (trace (world_after (retried m self url body inner) k s))
    = (dispatched (trace s) ++ repeat (verb_request m self url body None) k)%list
    /\ world (world_after (retried m self url body inner) k s)
       = answered transport (verb_request m self url body None) k (world s).
Proof.
  induction k as [|k IH]; intros s; cbn [world_after repeat answered];
    [now rewrite app_nil_r|].
  destruct (IH (snd (retried m self url body inner s))) as [IHd IHw].
  rewrite IHd, IHw.
  assert (Hs : snd (retried m self url body inner s)
               = snd (call_verb rt m self url body None s)) by apply read_body_state.
  rewrite Hs.
  destruct (verb_run m self url body s) as (tr & -> & Hd).
  cbn [snd trace world]. rewrite Hd, <- app_assoc. now split.
Qed.

(** A retried operation rejects when the transport does, with what the
    client raises for the failure. *)
Lemma retried_rejected (m : Method) (self : ApiClient) (url : string) (body : JsVal)
    (inner : bool) (s : St W) (failure : ErrObj) :
  fst (transport (verb_request m self url body None) (world s)) = Throw failure ->
  fst (retried m self url body inner s) = Throw (ThrownObject (raised_for failure)).
Proof.
  intros Hf. unfold retried, ReqResApiClient.as_operation, ReqResApiClient.read_body.
  destruct (verb_run m self url body s) as (tr & -> & _).
  rewrite Hf. reflexivity.
Qed.

(** A retried operation under [withRetry], when every request is
    rejected: [failure] is what the transport rejected the last request
    with. *)
Lemma retried_exhausted (m : Method) (self : ApiClient) (url : string) (body : JsVal)
    (inner : bool) (N : Z) (s : St (St W)) :
  (1 <= N)%Z ->
  (forall request w, exists failure, fst (transport request w) = Throw failure) ->
  exists failure s',
    withRetry (runtime testConfig (fun s0 : St W => now (world s0)) (dispatchRequest rt))
      (retried m self url body inner) testConfig (Some N) None s
    = Some (Throw (Some (ThrownObject (raised_for failure))), s')
    /\ fst (transport (verb_request m self url body None)
              (answered transport (verb_request m self url body None) (Z.to_nat N - 1)
                 (world (world s))))
       = Throw failure
    /\ invocations (trace s') = (invocations (trace s) + Z.to_nat N)%nat
    /\ dispatched (trace (world s'))
       = (dispatched (trace (world s))
          ++ repeat (verb_request m self url body None) (Z.to_nat N))%list.
Proof.
  intros HN Hrej. unfold withRetry. cbn [default from_option Datatypes.id].
  assert (Hop : forall s0 : St W, exists error,
            fst (retried m self url body inner s0) = Throw error /\ nullish error = false).
  { intros s0. destruct (Hrej (verb_request m self url body None) (world s0)) as [failure Hf].
    eexists. split; [apply (retried_rejected m self url body inner s0 failure Hf)|].
    reflexivity. }
  destruct (retry_loop_exhausted testConfig (fun s0 : St W => now (world s0))
              (dispatchRequest rt) (retried m self url body inner) N 1000%Z Hop
              (Z.to_nat N - 1) (Z.to_nat N) 1 None s)
    as (error & s' & Hrun & Herr & Hw & Hi & _); [lia | lia |].
  destruct (retried_requests m self url body inner (Z.to_nat N - 1) (world s)) as [_ Hlast].
  destruct (Hrej (verb_request m self url body None)
              (answered transport (verb_request m self url body None) (Z.to_nat N - 1)
                 (world (world s)))) as [failure Hf].
  rewrite (retried_rejected m self url body inner _ failure) in Herr
    by (rewrite Hlast; exact Hf).
  injection Herr as <-.
  exists failure, s'. split; [exact Hrun|]. split; [exact Hf|].
  replace (S (Z.to_nat N - 1)) with (Z.to_nat N) in * by lia.
  split; [exact Hi|]. rewrite Hw. apply retried_requests.
Qed.

(** X19. [getUserWithRetry] retries every kind of failure alike: when
    the transport rejects every request (with a 404 answer as much as
    with a lost connection), [getUserWithRetry(id, N)] with [N >= 1] sends
    exactly [N] requests, all [GET /users/<id>], and then throws what
    the client raises for the failure of the last request: the
    classified [Error], or the [TypeError] of [JSON.stringify] for a
    failure without response whose request object has a cycle. *)
Theorem getUserWithRetry_retries_every_failure (self : ApiClient) (id N : Z) (s : St (St W)) :
  (1 <= N)%Z ->
  (forall request w, exists failure, fst (transport request w) = Throw failure) ->
  exists failure s',
    ReqResApiClient.getUserWithRetry testConfig now transport self id (Some N) s
    = Some (Throw (Some (ThrownObject (raised_for failure))), s')
    /\ fst (transport (verb_request GET self ("/users/" +:+ pretty id) JUndefined None)
              (answered transport
                 (verb_request GET self ("/users/" +:+ pretty id) JUndefined None)
                 (Z.to_nat N - 1) (world (world s))))
       = Throw failure
    /\ invocations (trace s') = (invocations (trace s) + Z.to_nat N)%nat
    /\ dispatched (trace (world s'))
       = (dispatched (trace (world s))
          ++ repeat (verb_request GET self ("/users/" +:+ pretty id) JUndefined None)
               (Z.to_nat N))%list.
Proof.
  intros HN Hrej.
  exact (retried_exhausted GET self ("/users/" +:+ pretty id) JUndefined true N s HN Hrej).
Qed.

(** X20. [createUserWithRetry] sends its [POST /users] again after every
    failure: when the transport rejects every request,
    [createUserWithRetry(userData, N)] with [N >= 1] sends the same
    creation request, body included, exactly [N] times before it throws
    what the client raises for the failure of the last request. *)
Theorem createUserWithRetry_repeats_the_post (self : ApiClient) (userData : JsVal) (N : Z)
    (s : St (St W)) :
  (1 <= N)%Z ->
  (forall request w, exists failure, fst (transport request w) = Throw failure) ->
  exists failure s',
    ReqResApiClient.createUserWithRetry testConfig now transport self userData (Some N) s
    = Some (Throw (Some (ThrownObject (raised_for failure))), s')
    /\ fst (transport (verb_request POST self "/users" userData None)
              (answered transport (verb_request POST self "/users" userData None)
                 (Z.to_nat N - 1) (world (world s))))
       = Throw failure
    /\ dispatched (trace (world s'))
       = (dispatched (trace (world s))
          ++ repeat (verb_request POST self "/users" userData None) (Z.to_nat N))%list
    /\ req_method (verb_request POST self "/users" userData None) = POST
    /\ req_data (verb_request POST self "/users" userData None) = userData.
Proof.
  intros HN Hrej.
  destruct (retried_exhausted POST self "/users" userData false N s HN Hrej)
    as (failure & s' & Hrun & Hf & _ & Hd).
  exists failure, s'. repeat split; assumption.
Qed.


End ReqResProperties.

Lemma getUserWithRetry_retries_every_failure_witness :
  exists failure s',
    ReqResApiClient.getUserWithRetry sample_config sample_clock transport_counting_404
      (ReqResApiClient.constructor sample_config) 23 (Some 3%Z) (initial (initial 0%nat))
    = Some (Throw (Some (ThrownObject (raised_for failure))), s')
    /\ fst (transport_counting_404
              (verb_request GET (ReqResApiClient.constructor sample_config)
                 ("/users/" +:+ pretty 23%Z) JUndefined None)
              (answered transport_counting_404
                 (verb_request GET (ReqResApiClient.constructor sample_config)
                    ("/users/" +:+ pretty 23%Z) JUndefined None)
                 (Z.to_nat 3 - 1) 0%nat))
       = Throw failure
    /\ invocations (trace s') = (invocations [] + Z.to_nat 3)%nat
    /\ dispatched (trace (world s'))
       = (dispatched []
          ++ repeat (verb_request GET (ReqResApiClient.constructor sample_config)
                       ("/users/" +:+ pretty 23%Z) JUndefined None)
               (Z.to_nat 3))%list.
Proof.
  apply (getUserWithRetry_retries_every_failure sample_config sample_clock
           transport_counting_404 (ReqResApiClient.constructor sample_config) 23 3
           (initial (initial 0%nat))).
  - lia.
  - intros request w. eexists. reflexivity.
Defined.

Lemma createUserWithRetry_repeats_the_post_witness :
  exists failure s',
    ReqResApiClient.createUserWithRetry sample_config sample_clock transport_refused
      (ReqResApiClient.constructor sample_config)
      (JObj [("name", JStr "morpheus"); ("job", JStr "leader")]) (Some 2%Z)
      (initial (initial 0%nat))
    = Some (Throw (Some (ThrownObject (raised_for failure))), s')
    /\ fst (transport_refused
              (verb_request POST (ReqResApiClient.constructor sample_config) "/users"
                 (JObj [("name", JStr "morpheus"); ("job", JStr "leader")]) None)
              (answered transport_refused
                 (verb_request POST (ReqResApiClient.constructor sample_config) "/users"
                    (JObj [("name", JStr "morpheus"); ("job", JStr "leader")]) None)
                 (Z.to_nat 2 - 1) 0%nat))
       = Throw failure
    /\ dispatched (trace (world s'))
       = (dispatched []
          ++ repeat (verb_request POST (ReqResApiClient.constructor sample_config) "/users"
                       (JObj [("name", JStr "morpheus"); ("job", JStr "leader")]) None)
               (Z.to_nat 2))%list
    /\ req_method (verb_request POST (ReqResApiClient.constructor sample_config) "/users"
                     (JObj [("name", JStr "morpheus"); ("job", JStr "leader")]) None) = POST
    /\ req_data (verb_request POST (ReqResApiClient.constructor sample_config) "/users"
                   (JObj [("name", JStr "morpheus"); ("job", JStr "leader")]) None)
       = JObj [("name", JStr "morpheus"); ("job", JStr "leader")].
Proof.
  apply (createUserWithRetry_repeats_the_post sample_config sample_clock
           transport_refused (ReqResApiClient.constructor sample_config)
           (JObj [("name", JStr "morpheus"); ("job", JStr "leader")]) 2
           (initial (initial 0%nat))).
  - lia.
  - intros request w. eexists. reflexivity.
Defined.


(** ** Validation helpers *)

Lemma nonzero_number_spec (v : JsVal) :
  ReqResApiClient.nonzero_number v = true <-> exists n, v = JNum n /\ n <> 0%Z.
Proof.
  unfold ReqResApiClient.nonzero_number. split.
  - destruct v; cbn; try discriminate; try (now rewrite andb_false_r).
    rewrite andb_true_r. intros H. exists z. split; [reflexivity|].
    intros ->. discriminate.
  - intros (n & -> & Hn). cbn. rewrite andb_true_r. now destruct (Z.eqb_spec n 0).
Qed.

Lemma nonempty_string_spec (v : JsVal) :
  ReqResApiClient.nonempty_string v = true <-> exists s, v = JStr s /\ s <> "".
Proof.
  unfold ReqResApiClient.nonempty_string. split.
  - destruct v; cbn; try discriminate; try (now rewrite andb_false_r).
    rewrite andb_true_r. intros H. exists s. split; [reflexivity|].
    intros ->. discriminate.
  - intros (s & -> & Hs). cbn. rewrite andb_true_r. now destruct (String.eqb_spec s "").
Qed.

(** X22. [validateUser] accepts exactly the values whose [id] is a
    number other than 0 and whose [email], [first_name], [last_name] and
    [avatar] are non-empty strings (a user with [id] 0 or an empty name is
    refused); it throws exactly on [undefined] and [null]. *)
Theorem validateUser_accepts (user : JsVal) :
  (ReqResApiClient.validateUser user = Some true
   <-> exists n email first_name last_name avatar,
         prop user "id" = Some (JNum n) /\ n <> 0%Z
         /\ prop user "email" = Some (JStr email) /\ email <> ""
         /\ prop user "first_name" = Some (JStr first_name) /\ first_name <> ""
         /\ prop user "last_name" = Some (JStr last_name) /\ last_name <> ""
         /\ prop user "avatar" = Some (JStr avatar) /\ avatar <> "")
  /\ (ReqResApiClient.validateUser user = None <-> user = JUndefined \/ user = JNull).
Proof.
  unfold ReqResApiClient.validateUser.
  destruct (prop user "id") as [id|] eqn:Hid;
    destruct (prop user "email") as [email|] eqn:Hemail;
    destruct (prop user "first_name") as [first|] eqn:Hfirst;
    destruct (prop user "last_name") as [last|] eqn:Hlast;
    destruct (prop user "avatar") as [avatar|] eqn:Havatar;
    try (destruct user; discriminate).
  - cbn. split.
    + transitivity (ReqResApiClient.nonzero_number id = true
                    /\ ReqResApiClient.nonempty_string email = true
                    /\ ReqResApiClient.nonempty_string first = true
                    /\ ReqResApiClient.nonempty_string last = true
                    /\ ReqResApiClient.nonempty_string avatar = true).
      * unfold ReqResApiClient.nonzero_number, ReqResApiClient.nonempty_string.
        split.
        -- intros [= H]. rewrite !andb_true_iff in *. tauto.
        -- intros H. f_equal. rewrite !andb_true_iff in *. tauto.
      * rewrite nonzero_number_spec, !nonempty_string_spec. split.
        -- intros ((n & -> & Hn) & (e & -> & He) & (f & -> & Hf) & (l & -> & Hl) & (a & -> & Ha)).
           exists n, e, f, l, a. tauto.
        -- intros (n & e & f & l & a & [= ->] & Hn & [= ->] & He & [= ->] & Hf
                   & [= ->] & Hl & [= ->] & Ha).
           repeat split; eexists; split; (reflexivity || assumption).
    + split; [discriminate|]. intros [-> | ->]; discriminate.
  - cbn. split.
    + split; [discriminate|]. intros (n & ? & ? & ? & ? & H & _). discriminate.
    + split; [|reflexivity]. intros _. destruct user; (discriminate || auto).
Qed.

(** X23. [validateCreateUserResponse] accepts exactly the values whose
    [name], [job], [id] and [createdAt] are non-empty strings, so a
    numeric [id] is refused; [validateUpdateUserResponse] accepts exactly
    those whose [name], [job] and [updatedAt] are non-empty strings. *)
Theorem validate_responses_accept (response : JsVal) :
  (ReqResApiClient.validateCreateUserResponse response = Some true
   <-> exists name job id createdAt,
         prop response "name" = Some (JStr name) /\ name <> ""
         /\ prop response "job" = Some (JStr job) /\ job <> ""
         /\ prop response "id" = Some (JStr id) /\ id <> ""
         /\ prop response "createdAt" = Some (JStr createdAt) /\ createdAt <> "")
  /\ (ReqResApiClient.validateUpdateUserResponse response = Some true
      <-> exists name job updatedAt,
            prop response "name" = Some (JStr name) /\ name <> ""
            /\ prop response "job" = Some (JStr job) /\ job <> ""
            /\ prop response "updatedAt" = Some (JStr updatedAt) /\ updatedAt <> "").
Proof.
  unfold ReqResApiClient.validateCreateUserResponse, ReqResApiClient.validateUpdateUserResponse.
  destruct (prop response "name") as [name|] eqn:Hname;
    destruct (prop response "job") as [job|] eqn:Hjob;
    destruct (prop response "id") as [id|] eqn:Hid;
    destruct (prop response "createdAt") as [createdAt|] eqn:Hcreated;
    destruct (prop response "updatedAt") as [updatedAt|] eqn:Hupdated;
    try (destruct response; discriminate).
  - cbn. split.
    + transitivity (ReqResApiClient.nonempty_string name = true
                    /\ ReqResApiClient.nonempty_string job = true
                    /\ ReqResApiClient.nonempty_string id = true
                    /\ ReqResApiClient.nonempty_string createdAt = true).
      * unfold ReqResApiClient.nonempty_string. split.
        -- intros [= H]. rewrite !andb_true_iff in *. tauto.
        -- intros H. f_equal. rewrite !andb_true_iff in *. tauto.
      * rewrite !nonempty_string_spec. split.
        -- intros ((n & -> & Hn) & (j & -> & Hj) & (i & -> & Hi) & (c & -> & Hc)).
           exists n, j, i, c. tauto.
        -- intros (n & j & i & c & [= ->] & Hn & [= ->] & Hj & [= ->] & Hi & [= ->] & Hc).
           repeat split; eexists; split; (reflexivity || assumption).
    + transitivity (ReqResApiClient.nonempty_string name = true
                    /\ ReqResApiClient.nonempty_string job = true
                    /\ ReqResApiClient.nonempty_string updatedAt = true).
      * unfold ReqResApiClient.nonempty_string. split.
        -- intros [= H]. rewrite !andb_true_iff in *. tauto.
        -- intros H. f_equal. rewrite !andb_true_iff in *. tauto.
      * rewrite !nonempty_string_spec. split.
        -- intros ((n & -> & Hn) & (j & -> & Hj) & (u & -> & Hu)).
           exists n, j, u. tauto.
        -- intros (n & j & u & [= ->] & Hn & [= ->] & Hj & [= ->] & Hu).
           repeat split; eexists; split; (reflexivity || assumption).
  - cbn. split; (split; [discriminate|]).
    + intros (? & ? & ? & ? & H & _). discriminate.
    + intros (? & ? & ? & H & _). discriminate.
Qed.
